(** * ConfirmacionMetrologica: the EDA helpers and the data loader

    A shallow embedding of [utils/DataEDA.py] (class
    [EDAStatisticalAnalysis]) and [utils/DataLoader.py] (class
    [DataLoader]), and the properties their specification states.

    Conventions.
    - A Python call either returns or raises: [Py.outcome].  A catch-all
      [except Exception as e: return str(e)] is a match on the outcome.
    - A pandas frame is an ordered list of labelled columns; a cell is a
      binary64 number (with NaN for a missing entry) or a text.
    - Library routines whose result the source only passes along
      ([describe], [corr], [f_oneway], [fit], [predict], [read_csv],
      [pickle], [joblib], [query]) are
      the fields of a class the methods are parameterised by: every
      theorem holds for whatever they return. *)

From Stdlib Require Import ZArith List Bool Ascii String Lia.
From Stdlib Require Import Floats.SpecFloat.
From stdpp Require Import gmap strings list fin_maps pretty.

Import ListNotations.

(* ===================================================================== *)
(** * Python outcomes                                                     *)
(* ===================================================================== *)

Module Py.

(** The exception classes the two files raise or let through. *)
Inductive exn : Type :=
| ValueError (msg : string)
| TypeError (msg : string)
| KeyError (msg : string)
| ParserError (msg : string)
| OSError (msg : string)
| OtherError (msg : string).

(** [repr] of a text without quotes or escapes to protect: the form
    [str] gives to the argument of a [KeyError]. *)
Definition repr (s : string) : string :=
  String.append "'" (String.append s "'").

(** [str(e)]. *)
Definition str (e : exn) : string :=
  match e with
  | ValueError m | TypeError m | ParserError m
  | OSError m | OtherError m => m
  | KeyError m => repr m
  end.

(** A call returns a value or raises. *)
Inductive outcome (A : Type) : Type :=
| Ret (a : A)
| Raise (e : exn).
Arguments Ret {A} a.
Arguments Raise {A} e.

Definition bind {A B} (m : outcome A) (k : A -> outcome B) : outcome B :=
  match m with
  | Ret a => k a
  | Raise e => Raise e
  end.

(** A list comprehension whose body may raise: left to right, the first
    exception wins. *)
Fixpoint mapM {A B} (f : A -> outcome B) (l : list A) : outcome (list B) :=
  match l with
  | [] => Ret []
  | x :: l' =>
      bind (f x) (fun y => bind (mapM f l') (fun ys => Ret (y :: ys)))
  end.

(** A value that the catch-all handlers replace by a message. *)
Inductive or_str (A : Type) : Type :=
| Val (a : A)
| Msg (s : string).
Arguments Val {A} a.
Arguments Msg {A} s.

End Py.

Import Py.

Notation "'let*' x ':=' m 'in' k" := (Py.bind m (fun x => k))
  (at level 10, x name, m at level 100, k at level 200, only parsing).

(* ===================================================================== *)
(** * Frames                                                              *)
(* ===================================================================== *)

Module Frame.

(** binary64 *)
Definition prec : Z := 53.
Definition emax : Z := 1024.

Definition of_Z (z : Z) : spec_float := binary_normalize prec emax z 0 false.
Definition zero : spec_float := S754_zero false.

Definition is_nan (x : spec_float) : bool :=
  match x with S754_nan => true | _ => false end.
Definition is_inf (x : spec_float) : bool :=
  match x with S754_infinity _ => true | _ => false end.

(** A number (NaN stands for a missing entry) or a text. *)
Inductive cell : Type :=
| Num (x : spec_float)
| Str (s : string).

Definition column : Type := list cell.

(** Columns in their order, each with its label.  The columns of a frame
    have the same number of rows; an operation row by row pairs them in
    order. *)
Definition dataset : Type := list (string * column).

(** [df.columns] *)
Definition columns (df : dataset) : list string := map fst df.

(** [col in df.columns] *)
Definition has_column (df : dataset) (col : string) : bool :=
  existsb (String.eqb col) (columns df).

(** [df[col]] for a label that one column carries. *)
Fixpoint getitem (df : dataset) (col : string) : option column :=
  match df with
  | [] => None
  | (l, c) :: df' => if String.eqb col l then Some c else getitem df' col
  end.

Definition getitem_series (df : dataset) (col : string) : outcome column :=
  match getitem df col with
  | Some c => Ret c
  | None => Raise (KeyError col)
  end.

(** [df[cols]]: the listed columns, in the order of the list. *)
Definition select (df : dataset) (cols : list string) : outcome dataset :=
  mapM (fun col => let* c := getitem_series df col in Ret (col, c)) cols.

(** [df[col] = c] *)
Definition setitem (df : dataset) (col : string) (c : column) : dataset :=
  if has_column df col
  then map (fun p => if String.eqb col (fst p) then (fst p, c) else p) df
  else df ++ [(col, c)].

(** [df.empty]: no column or no row. *)
Definition empty (df : dataset) : bool :=
  match df with
  | [] => true
  | (_, c) :: _ => match c with [] => true | _ => false end
  end.

Definition type_name (c : cell) : string :=
  match c with Num _ => "float" | Str _ => "str" end.

(** ** Elementwise arithmetic: numbers only, a text raises [TypeError] *)

Definition cell_sub (a b : cell) : outcome cell :=
  match a, b with
  | Num x, Num y => Ret (Num (SFsub prec emax x y))
  | _, _ =>
      Raise (TypeError (String.append "unsupported operand type(s) for -: '"
               (String.append (type_name a)
               (String.append "' and '" (String.append (type_name b) "'")))))
  end.

Definition cell_abs (a : cell) : outcome cell :=
  match a with
  | Num x => Ret (Num (SFabs x))
  | Str _ => Raise (TypeError "bad operand type for abs(): 'str'")
  end.

Definition cell_div (a b : cell) : outcome cell :=
  match a, b with
  | Num x, Num y => Ret (Num (SFdiv prec emax x y))
  | _, _ =>
      Raise (TypeError (String.append "unsupported operand type(s) for /: '"
               (String.append (type_name a)
               (String.append "' and '" (String.append (type_name b) "'")))))
  end.

(** [.replace([np.inf, -np.inf], np.nan)] on one cell *)
Definition cell_replace_inf (a : cell) : cell :=
  match a with
  | Num x => if is_inf x then Num S754_nan else Num x
  | Str s => Str s
  end.

(** [.isna()] on one cell *)
Definition cell_isna (a : cell) : bool :=
  match a with
  | Num x => is_nan x
  | Str _ => false
  end.

(** [.fillna(0)] on one cell *)
Definition cell_fillna0 (a : cell) : cell :=
  if cell_isna a then Num zero else a.

(** A binary operation of a column with a series, row by row. *)
Definition column_op (f : cell -> cell -> outcome cell)
    (c s : column) : outcome column :=
  mapM (fun p => f (fst p) (snd p)) (combine c s).

(** [frame.subtract(series, axis=0)], [frame.div(series, axis=0)] *)
Definition frame_op (f : cell -> cell -> outcome cell)
    (df : dataset) (s : column) : outcome dataset :=
  mapM (fun p => let* c := column_op f (snd p) s in Ret (fst p, c)) df.

(** [frame.abs()] *)
Definition frame_abs (df : dataset) : outcome dataset :=
  mapM (fun p => let* c := mapM cell_abs (snd p) in Ret (fst p, c)) df.

(** a total cell function on every cell of a frame *)
Definition frame_map (f : cell -> cell) (df : dataset) : dataset :=
  map (fun p => (fst p, map f (snd p))) df.

End Frame.

(* ===================================================================== *)
(** * utils/DataEDA.py : EDAStatisticalAnalysis                          *)
(* ===================================================================== *)

Module DataEDA.
Import Frame.

(** [error_analysis(df, reference_col, measurement_cols)], the body of
    the [try]. *)
Definition error_analysis_body (df : dataset) (reference_col : string)
    (measurement_cols : list string) : outcome (dataset * dataset) :=
  if negb (has_column df reference_col) then
    Raise (ValueError (String.append "Reference column '"
             (String.append reference_col "' not found in DataFrame.")))
  else if existsb (fun col => negb (has_column df col)) measurement_cols then
    Raise (ValueError "One or more measurement columns not found in DataFrame.")
  else
    let* sel := select df measurement_cols in
    let* ref := getitem_series df reference_col in
    let* diff := frame_op cell_sub sel ref in
    let* error_abs := frame_abs diff in
    let* quot := frame_op cell_div error_abs ref in
    Ret (error_abs, frame_map cell_fillna0 (frame_map cell_replace_inf quot)).

Definition error_analysis (df : dataset) (reference_col : string)
    (measurement_cols : list string) : or_str dataset * option dataset :=
  match error_analysis_body df reference_col measurement_cols with
  | Ret (error_abs, error_rel) => (Val error_abs, Some error_rel)
  | Raise e => (Msg (str e), None)
  end.

(** ** Library routines the class calls and passes along

    [describe] is [DataFrame.describe], [corr] is [DataFrame.corr],
    [f_oneway] is [scipy.stats.f_oneway] (its result unpacked into the
    statistic and the p-value).  Each may raise. *)
Class StatsLib : Type := {
  describe : dataset -> outcome dataset;
  corr : dataset -> outcome dataset;
  f_oneway : list column -> outcome (spec_float * spec_float)
}.

(** The static methods of [EDAStatisticalAnalysis]. *)
Inductive analysis : Type :=
| DescriptiveStatistics
| CorrelationMatrix
| ErrorAnalysis
| AnovaTest
| LinearRegressionModel
| ModelValidation
| ResidualAnalysis.

(** The values [summary_statistics] stores in its dictionary. *)
Inductive value : Type :=
| VNone
| VStr (s : string)
| VFloat (x : spec_float)
| VFrame (df : dataset)
| VTuple (a b : value).

Definition value_of_frame (r : or_str dataset) : value :=
  match r with Val df => VFrame df | Msg s => VStr s end.

Definition value_of_float (r : or_str spec_float) : value :=
  match r with Val x => VFloat x | Msg s => VStr s end.

Definition value_of_option {A} (f : A -> value) (o : option A) : value :=
  match o with Some a => f a | None => VNone end.

Section Analyses.
Context `{StatsLib}.

(** [descriptive_statistics(df)]: no handler of its own. *)
Definition descriptive_statistics (df : dataset) : outcome dataset :=
  describe df.

Definition correlation_matrix_body (df : dataset) : outcome dataset :=
  let* c := corr df in
  if empty c then Raise (ValueError "Unable to compute correlations.")
  else Ret c.

Definition correlation_matrix (df : dataset) : or_str dataset :=
  match correlation_matrix_body df with
  | Ret c => Val c
  | Raise e => Msg (str e)
  end.

Definition anova_test_body (df : dataset) (measurement_cols : list string)
    : outcome (spec_float * spec_float) :=
  if (length measurement_cols <? 2)%nat then
    Raise (ValueError "At least two columns are required for ANOVA.")
  else
    let* measurements :=
      mapM (getitem_series df)
        (List.filter (fun col => has_column df col) measurement_cols) in
    f_oneway measurements.

Definition anova_test (df : dataset) (measurement_cols : list string)
    : or_str spec_float * option spec_float :=
  match anova_test_body df measurement_cols with
  | Ret (f_val, p_val) => (Val f_val, Some p_val)
  | Raise e => (Msg (str e), None)
  end.

(** [summary_statistics(df, reference_col, measurement_cols)].  The
    first component lists the methods of the class it has called, in
    call order; the second is the dictionary it returns, or the
    exception that leaves it. *)
Definition summary_statistics (df : dataset) (reference_col : string)
    (measurement_cols : list string)
    : list analysis * outcome (list (string * value)) :=
  match descriptive_statistics df with
  | Raise e => ([DescriptiveStatistics], Ret [("Error", VStr (str e))])
  | Ret desc_stats =>
      let corr_matrix := correlation_matrix df in
      let '(error_abs, error_rel) :=
        error_analysis df reference_col measurement_cols in
      let anova_result := anova_test df measurement_cols in
      ([DescriptiveStatistics; CorrelationMatrix; ErrorAnalysis; AnovaTest],
       Ret [("Descriptive Statistics", VFrame desc_stats);
            ("Correlation Matrix", value_of_frame corr_matrix);
            ("Absolute Errors", value_of_frame error_abs);
            ("Relative Errors", value_of_option VFrame error_rel);
            ("ANOVA Result",
             VTuple (value_of_float (fst anova_result))
                    (value_of_option VFloat (snd anova_result)))])
  end.

End Analyses.

(** What the two frames hold, on numbers. *)
Definition abs_error (m r : spec_float) : spec_float :=
  SFabs (SFsub prec emax m r).

Definition rel_error (m r : spec_float) : spec_float :=
  let q := SFdiv prec emax (abs_error m r) r in
  if is_inf q || is_nan q then zero else q.

(** ** linear_regression_model

    [fit] is [LinearRegression().fit(X, y)] and [predict] is
    [model.predict(X)] of scikit-learn; [X] is the list of the predictor
    columns ([.values] drops the labels). *)
Class RegressionLib : Type := {
  model : Type;
  fit : list column -> column -> outcome model;
  predict : model -> list column -> outcome column
}.

Section Regression.
Context `{RegressionLib}.

(** [df[measurement_cols].values if len(measurement_cols) > 1
     else df[[measurement_cols[0]]].values]; indexing an empty list with
    [0] raises [IndexError]. *)
Definition design_matrix (df : dataset) (measurement_cols : list string)
    : outcome (list column) :=
  if (1 <? length measurement_cols)%nat then
    let* sel := select df measurement_cols in
    Ret (map snd sel)
  else
    match measurement_cols with
    | [] => Raise (OtherError "list index out of range")
    | first :: _ =>
        let* sel := select df [first] in
        Ret (map snd sel)
    end.

Definition linear_regression_model_body (df : dataset) (reference_col : string)
    (measurement_cols : list string) : outcome (model * column) :=
  if negb (has_column df reference_col) then
    Raise (ValueError (String.append "Reference column '"
             (String.append reference_col "' not found in DataFrame.")))
  else
    let* X := design_matrix df measurement_cols in
    let* y := getitem_series df reference_col in
    let* fitted := fit X y in
    let* predictions := predict fitted X in
    Ret (fitted, predictions).

Definition linear_regression_model (df : dataset) (reference_col : string)
    (measurement_cols : list string) : or_str model * option column :=
  match linear_regression_model_body df reference_col measurement_cols with
  | Ret (fitted, predictions) => (Val fitted, Some predictions)
  | Raise e => (Msg (str e), None)
  end.

End Regression.

(** ** residual_analysis

    On two one-dimensional arrays of binary64 numbers, as
    [linear_regression_model] produces them.  numpy subtracts row by row
    when the lengths agree, repeats the single entry of an array of
    length one, and otherwise raises [ValueError]. *)
Definition shape_text (n : nat) : string :=
  String.append "(" (String.append (pretty n) ",)").

Definition array_sub (a b : list spec_float) : outcome (list spec_float) :=
  if (length a =? length b)%nat then Ret (zip_with (SFsub prec emax) a b)
  else
    match a, b with
    | [x], _ => Ret (map (fun y => SFsub prec emax x y) b)
    | _, [y] => Ret (map (fun x => SFsub prec emax x y) a)
    | _, _ =>
        Raise (ValueError
                 (String.append
                    "operands could not be broadcast together with shapes "
                    (String.append (shape_text (length a))
                       (String.append " "
                          (String.append (shape_text (length b)) " ")))))
    end.

Definition residual_analysis (y_true y_pred : list spec_float)
    : or_str (list spec_float) :=
  match array_sub y_true y_pred with
  | Ret r => Val r
  | Raise e => Msg (str e)
  end.

End DataEDA.

(* ===================================================================== *)
(** * utils/DataLoader.py : DataLoader                                    *)
(* ===================================================================== *)

Module DataLoader.
Import Frame.

(** ** transform_json_keys

    Frames are objects: a reference [loc] into a store of frames.  The
    caller and the callee hold the same reference. *)

Definition loc : Type := nat.

(** [frame.columns = new_columns]; pandas refuses a list of another
    length. *)
Definition set_columns (df : dataset) (new_columns : list string)
    : outcome dataset :=
  if (length new_columns =? length df)%nat then
    Ret (zip_with (fun n p => (n, snd p)) new_columns df)
  else Raise (ValueError "Length mismatch").

(** The [for] loop that builds [new_columns]. *)
Definition map_columns (mapping : gmap string string) (cols : list string)
    : outcome (list string) :=
  mapM (fun col =>
          match mapping !! col with
          | Some new => Ret new
          | None =>
              Raise (KeyError (String.append "La columna '"
                       (String.append col "' no tiene un mapeo en el modelo.")))
          end) cols.

(** A reference always denotes a frame of the store; the first branch is
    there for a total function only. *)
Definition transform_json_keys (h : gmap loc dataset) (input_data : loc)
    (mapping : gmap string string) : gmap loc dataset * outcome loc :=
  match h !! input_data with
  | None => (h, Raise (OtherError "no such object"))
  | Some df =>
      match map_columns mapping (columns df) with
      | Raise e => (h, Raise e)
      | Ret new_columns =>
          match set_columns df new_columns with
          | Raise e => (h, Raise e)
          | Ret df' => (<[input_data := df']> h, Ret input_data)
          end
      end
  end.

(** ** load_data_csv *)

(** [read_csv] is [pd.read_csv] on the file system of the call, with
    the path, the encoding and the delimiter ([header=0],
    [quoting=csv.QUOTE_NONE] and [decimal=','] are fixed by the caller);
    [parse_float] is the reading of one text as a number that
    [pd.to_numeric] attempts. *)
Class CsvLib : Type := {
  read_csv : string -> string -> string -> outcome dataset;
  parse_float : string -> option spec_float
}.

Section Csv.
Context `{CsvLib}.

(** [pd.to_numeric(series, errors='coerce')]: a text that is no number
    becomes NaN. *)
Definition coerce_cell (c : cell) : cell :=
  match c with
  | Num x => Num x
  | Str s =>
      match parse_float s with
      | Some x => Num x
      | None => Num S754_nan
      end
  end.

Definition to_numeric (c : column) : column := map coerce_cell c.

(** [series.isna().any()] *)
Definition isna_any (c : column) : bool := existsb cell_isna c.

(** One turn of the loop over [data.columns]. *)
Definition coerce_column (data : dataset) (col : string) : outcome dataset :=
  let* original_data := getitem_series data col in
  let data1 := setitem data col (to_numeric original_data) in
  let* converted := getitem_series data1 col in
  if isna_any converted then Ret (setitem data1 col original_data)
  else Ret data1.

Fixpoint coerce_columns (data : dataset) (cols : list string)
    : outcome dataset :=
  match cols with
  | [] => Ret data
  | col :: cols' =>
      let* data' := coerce_column data col in
      coerce_columns data' cols'
  end.

(** The message printed before [None] is returned is not modelled. *)
Definition load_data_csv (filename_path encoding delimiter : string)
    : outcome (option dataset) :=
  match (let* data := read_csv filename_path encoding delimiter in
         coerce_columns data (columns data)) with
  | Ret data => Ret (Some data)
  | Raise (ParserError _) => Ret None
  | Raise e => Raise e
  end.

End Csv.

(** ** save_data_pickle, load_data_pickle *)

(** [dumps]/[loads] are [pickle.dump]/[pickle.load] on frames, [query] is
    [DataFrame.query], [writable] tells whether [open(path, 'wb')]
    succeeds. *)
Class PickleLib : Type := {
  bytes : Type;
  dumps : dataset -> bytes;
  loads : bytes -> outcome dataset;
  query : dataset -> string -> outcome dataset;
  writable : string -> bool
}.

Section Pickle.
Context `{PickleLib}.

(** [if filter_condition:] holds for a text that is not empty. *)
Definition save_data_pickle (fs : gmap string bytes) (data : dataset)
    (filename_path : string) (filter_condition : option string)
    : gmap string bytes * outcome unit :=
  let filtered :=
    match filter_condition with
    | Some cond =>
        if String.eqb cond "" then Ret data else query data cond
    | None => Ret data
    end in
  match filtered with
  | Raise e => (fs, Raise e)
  | Ret data' =>
      if writable filename_path
      then (<[filename_path := dumps data']> fs, Ret tt)
      else (fs, Raise (OSError filename_path))
  end.

Definition load_data_pickle (fs : gmap string bytes)
    (namefile_path : string) : outcome dataset :=
  match fs !! namefile_path with
  | Some b => loads b
  | None => Raise (OSError namefile_path)
  end.

End Pickle.

(** ** get_last_trained_model_name *)

(** [s.endswith(suffix)] *)
Definition endswith (s suffix : string) : bool :=
  let n := String.length s in
  let k := String.length suffix in
  (k <=? n)%nat && String.eqb (substring (n - k) k s) suffix.

(** [s.split(sep)] for a separator of one character: never empty. *)
Fixpoint split (sep : ascii) (s : string) : list string :=
  match s with
  | EmptyString => [EmptyString]
  | String c s' =>
      if Ascii.eqb c sep then EmptyString :: split sep s'
      else match split sep s' with
           | h :: t => String c h :: t
           | [] => [String c EmptyString]
           end
  end.

(** [s.replace(old, '')]: the occurrences of [old] found from the left,
    without overlap, are dropped.  [skip] counts the characters of an
    occurrence still to drop. *)
Fixpoint remove_go (old : string) (skip : nat) (s : string) : string :=
  match s with
  | EmptyString => EmptyString
  | String c s' =>
      match skip with
      | S k => remove_go old k s'
      | O =>
          if String.eqb old EmptyString then String c (remove_go old 0 s')
          else if String.prefix old s
          then remove_go old (String.length old - 1) s'
          else String c (remove_go old 0 s')
      end
  end.

Definition remove_all (old s : string) : string := remove_go old 0 s.

(** [x.split('#')[-1].replace('.pkl', '')] *)
Definition timestamp_text (x : string) : string :=
  remove_all ".pkl" (List.last (split "#" x) EmptyString).

(** [datetime.datetime] to the second. *)
Record datetime : Type := {
  year : N; month : N; day : N; hour : N; minute : N; second : N
}.

Definition digit (c : ascii) : option N :=
  let n := N_of_ascii c in
  if (48 <=? n)%N && (n <=? 57)%N then Some (n - 48)%N else None.

(** A field of one or two digits, with its number of characters. *)
Definition digits12 (s : string) : option (nat * N) :=
  match s with
  | String a EmptyString =>
      match digit a with Some x => Some (1%nat, x) | None => None end
  | String a (String b EmptyString) =>
      match digit a, digit b with
      | Some x, Some y => Some (2%nat, (10 * x + y)%N)
      | _, _ => None
      end
  | _ => None
  end.

(** [%Y]: four digits. *)
Definition parse_Y (s : string) : option N :=
  match s with
  | String a (String b (String c (String d EmptyString))) =>
      match digit a, digit b, digit c, digit d with
      | Some x, Some y, Some z, Some w =>
          Some (1000 * x + 100 * y + 10 * z + w)%N
      | _, _, _, _ => None
      end
  | _ => None
  end.

(** [%m]: [1[0-2]|0[1-9]|[1-9]] *)
Definition parse_m (s : string) : option N :=
  match digits12 s with
  | Some (_, v) => if (1 <=? v)%N && (v <=? 12)%N then Some v else None
  | None => None
  end.

(** [%d]: [3[0-1]|[1-2]\d|0[1-9]|[1-9]| [1-9]] *)
Definition parse_d (s : string) : option N :=
  match s with
  | String " " (String b EmptyString) =>
      match digit b with
      | Some v => if (1 <=? v)%N then Some v else None
      | None => None
      end
  | _ =>
      match digits12 s with
      | Some (_, v) => if (1 <=? v)%N && (v <=? 31)%N then Some v else None
      | None => None
      end
  end.

(** [%H]: [2[0-3]|[0-1]\d|\d] *)
Definition parse_H (s : string) : option N :=
  match digits12 s with
  | Some (_, v) => if (v <=? 23)%N then Some v else None
  | None => None
  end.

(** [%M]: [[0-5]\d|\d] *)
Definition parse_M (s : string) : option N :=
  match digits12 s with
  | Some (_, v) => if (v <=? 59)%N then Some v else None
  | None => None
  end.

(** [%S]: [6[0-1]|[0-5]\d|\d]; the [datetime] constructor then refuses
    60 and 61. *)
Definition parse_S (s : string) : option N :=
  match digits12 s with
  | Some (_, v) => if (v <=? 59)%N then Some v else None
  | None => None
  end.

Definition is_leap (y : N) : bool :=
  ((y mod 4 =? 0) && (negb (y mod 100 =? 0) || (y mod 400 =? 0)))%N.

Definition days_in_month (y m : N) : N :=
  if (m =? 2)%N then (if is_leap y then 29 else 28)%N
  else if ((m =? 4) || (m =? 6) || (m =? 9) || (m =? 11))%N then 30%N
  else 31%N.

(** [datetime.datetime.strptime(s, "%Y-%m-%d_%H-%M-%S")]; [None] is the
    [ValueError] of a text that does not match or of a date that does
    not exist.  No field holds [-] or [_], so the text splits at
    them. *)
Definition strptime (s : string) : option datetime :=
  match split "-" s with
  | [sY; sm; sdH; sM; sS] =>
      match split "_" sdH with
      | [sd; sH] =>
          match parse_Y sY, parse_m sm, parse_d sd,
                parse_H sH, parse_M sM, parse_S sS with
          | Some y, Some m, Some d, Some hh, Some mm, Some ss =>
              if (1 <=? y)%N && (d <=? days_in_month y m)%N
              then Some {| year := y; month := m; day := d;
                           hour := hh; minute := mm; second := ss |}
              else None
          | _, _, _, _, _, _ => None
          end
      | _ => None
      end
  | _ => None
  end.

(** Order of two dates: field after field. *)
Fixpoint lex_compare (a b : list N) : comparison :=
  match a, b with
  | [], [] => Eq
  | [], _ :: _ => Lt
  | _ :: _, [] => Gt
  | x :: a', y :: b' =>
      match (x ?= y)%N with
      | Eq => lex_compare a' b'
      | c => c
      end
  end.

Definition fields (t : datetime) : list N :=
  [year t; month t; day t; hour t; minute t; second t].

Definition datetime_ltb (a b : datetime) : bool :=
  match lex_compare (fields a) (fields b) with Lt => true | _ => false end.

Definition datetime_leb (a b : datetime) : bool := negb (datetime_ltb b a).

(** The key of the sort; a name without a timestamp raises. *)
Definition sort_key (x : string) : outcome datetime :=
  match strptime (timestamp_text x) with
  | Some t => Ret t
  | None =>
      Raise (ValueError (String.append "time data '"
               (String.append (timestamp_text x)
                  "' does not match format '%Y-%m-%d_%H-%M-%S'")))
  end.

(** [list.sort(key=..., reverse=True)]: largest key first; equal keys
    keep the order they had. *)
Fixpoint insert_desc (x : datetime * string) (l : list (datetime * string))
    : list (datetime * string) :=
  match l with
  | [] => [x]
  | y :: l' =>
      if datetime_ltb (fst x) (fst y) then y :: insert_desc x l'
      else x :: l
  end.

Definition sort_desc (l : list (datetime * string)) : list (datetime * string) :=
  fold_right insert_desc [] l.

(** What the sort is for: the head of the list is a largest element. *)
Definition head_is_latest (l : list (datetime * string)) : Prop :=
  match l with
  | [] => True
  | h :: _ => forall y, In y l -> datetime_leb (fst y) (fst h) = true
  end.

Definition sort_by_key_reverse (files : list string) : outcome (list string) :=
  let* keyed := mapM (fun x => let* k := sort_key x in Ret (k, x)) files in
  Ret (map snd (sort_desc keyed)).

(** [os.path.join(a, b)] of [posixpath]. *)
Definition path_join (a b : string) : string :=
  if String.prefix "/" b then b
  else if String.eqb a EmptyString || endswith a "/" then String.append a b
  else String.append a (String.append "/" b).

(** [os.listdir(path)] over the directories of the file system. *)
Definition listdir (dirs : gmap string (list string)) (path : string)
    : outcome (list string) :=
  match dirs !! path with
  | Some names => Ret names
  | None => Raise (OSError path)
  end.

Definition get_last_trained_model_name (dirs : gmap string (list string))
    (base_path : string) : outcome (option string) :=
  let* files := listdir dirs base_path in
  let model_files := List.filter (fun file => endswith file ".pkl") files in
  match model_files with
  | [] => Ret None
  | _ :: _ =>
      let* sorted := sort_by_key_reverse model_files in
      match sorted with
      | first :: _ => Ret (Some (path_join base_path first))
      | [] => Raise (OtherError "list index out of range")
      end
  end.

(** ** apply_mapping

    A value mapping is a dictionary keyed by text, as the categorical
    codes of a column read from a file are.  [Series.map] turns a value
    without an entry into NaN; a number is no key, so it has none. *)
Definition map_cell (mapping : gmap string cell) (c : cell) : cell :=
  match c with
  | Str s =>
      match mapping !! s with
      | Some v => v
      | None => Num S754_nan
      end
  | Num _ => Num S754_nan
  end.

(** One turn of the loop over [diccionary.items()]. *)
Definition apply_mapping_step (input_data : dataset)
    (entry : string * gmap string cell) : outcome dataset :=
  if has_column input_data (fst entry) then
    let* c := getitem_series input_data (fst entry) in
    Ret (setitem input_data (fst entry) (map (map_cell (snd entry)) c))
  else Ret input_data.

Fixpoint apply_mapping_loop (input_data : dataset)
    (items : list (string * gmap string cell)) : outcome dataset :=
  match items with
  | [] => Ret input_data
  | entry :: items' =>
      let* data' := apply_mapping_step input_data entry in
      apply_mapping_loop data' items'
  end.

(** The dictionary is given by its items in insertion order (their keys
    distinct); the frame is changed in place and its reference
    returned. *)
Definition apply_mapping (h : gmap loc dataset) (input_data : loc)
    (diccionary : list (string * gmap string cell))
    : gmap loc dataset * outcome loc :=
  match h !! input_data with
  | None => (h, Raise (OtherError "no such object"))
  | Some df =>
      match apply_mapping_loop df diccionary with
      | Raise e => (h, Raise e)
      | Ret df' => (<[input_data := df']> h, Ret input_data)
      end
  end.

(** What the loop leaves in a column: the entry of the dictionary for a
    label, and the column after the entry, if there is one, was applied. *)
Fixpoint entry_for (label : string) (items : list (string * gmap string cell))
    : option (gmap string cell) :=
  match items with
  | [] => None
  | (k, m) :: items' =>
      if String.eqb k label then Some m else entry_for label items'
  end.

Definition mapped_column (items : list (string * gmap string cell))
    (p : string * column) : string * column :=
  match entry_for (fst p) items with
  | Some m => (fst p, map (map_cell m) (snd p))
  | None => p
  end.

(** ** save_model, load_model *)

(** The decimal digit [d] as a character. *)
Definition digit_char (d : N) : ascii := ascii_of_N (48 + d).

Definition pad2 (n : N) : string :=
  String (digit_char (n / 10)) (String (digit_char (n mod 10)) EmptyString).

Definition pad4 (n : N) : string :=
  String (digit_char (n / 1000))
    (String (digit_char ((n / 100) mod 10)) (pad2 (n mod 100))).

(** [t.strftime("%Y-%m-%d_%H-%M-%S")], for the years of four digits. *)
Definition strftime (t : datetime) : string :=
  String.append (pad4 (year t))
    (String "-" (String.append (pad2 (month t))
    (String "-" (String.append (pad2 (day t))
    (String "_" (String.append (pad2 (hour t))
    (String "-" (String.append (pad2 (minute t))
    (String "-" (pad2 (second t))))))))))).

(** The dates a clock can give, from the year 1000 on. *)
Definition valid_datetime (t : datetime) : bool :=
  ((1000 <=? year t) && (year t <=? 9999) &&
   (1 <=? month t) && (month t <=? 12) &&
   (1 <=? day t) && (day t <=? days_in_month (year t) (month t)) &&
   (hour t <=? 23) && (minute t <=? 59) && (second t <=? 59))%N.

(** [f"{filename_path}#{date_str}.pkl"] *)
Definition model_file_name (filename_path : string) (now : datetime) : string :=
  String.append filename_path
    (String "#" (String.append (strftime now) ".pkl")).

(** The text [s] holds no character [c]. *)
Fixpoint lacks (c : ascii) (s : string) : bool :=
  match s with
  | EmptyString => true
  | String a s' => negb (Ascii.eqb a c) && lacks c s'
  end.

(** [jdump]/[jload] are [joblib.dump]/[joblib.load] on models,
    [jwritable] tells whether the file can be created. *)
Class JoblibLib : Type := {
  jmodel : Type;
  jbytes : Type;
  jdump : jmodel -> jbytes;
  jload : jbytes -> outcome jmodel;
  jwritable : string -> bool
}.

Section Joblib.
Context `{JoblibLib}.

(** [now] is what [datetime.datetime.now()] returns at the call. *)
Definition save_model (fs : gmap string jbytes) (now : datetime)
    (filename_path : string) (m : jmodel)
    : gmap string jbytes * outcome string :=
  let full_filename := model_file_name filename_path now in
  if jwritable full_filename
  then (<[full_filename := jdump m]> fs, Ret full_filename)
  else (fs, Raise (OSError full_filename)).

Definition load_model (fs : gmap string jbytes) (filename_path : string)
    : outcome jmodel :=
  match fs !! filename_path with
  | Some b => jload b
  | None => Raise (OSError filename_path)
  end.

End Joblib.

End DataLoader.

(* ===================================================================== *)
(** * Sample data                                                         *)
(* ===================================================================== *)

Module Samples.
Import Frame DataEDA DataLoader.

(** A reference column, two measurement columns and a column of text. *)
Definition readings : dataset :=
  [("ref", [Num (of_Z 2); Num (of_Z 0); Num (of_Z 4)]);
   ("s1", [Num (of_Z 3); Num (of_Z 1); Num (of_Z 4)]);
   ("s2", [Num (of_Z 1); Num (of_Z 0); Num (of_Z 8)]);
   ("unit", [Str "mm"; Str "mm"; Str "mm"])].

(** A library that answers with fixed frames and a count: enough to run
    the methods that only pass its results along. *)
Definition fixed_stats : StatsLib := {|
  describe := fun df => Ret [("count", [Num (of_Z (Z.of_nat (length df)))])];
  corr := fun df => Ret df;
  f_oneway := fun cols =>
    match cols with
    | _ :: _ :: _ => Ret (of_Z (Z.of_nat (length cols)), zero)
    | _ => Raise (TypeError "at least two inputs are required; got 1.")
    end
|}.

(** A store with one frame, and a renaming of its four labels. *)
Definition one_frame : gmap loc dataset := {[ 7%nat := readings ]}.

Definition to_model_names : gmap string string :=
  {[ "ref" := "y"; "s1" := "x1"; "s2" := "x2"; "unit" := "u" ]}.

(** A text of decimal digits read as a whole number. *)
Fixpoint whole_number (acc : N) (s : string) : option N :=
  match s with
  | EmptyString => Some acc
  | String c s' =>
      match digit c with
      | Some d => whole_number (10 * acc + d) s'
      | None => None
      end
  end.

(** A file system of two files, one that parses and one that does not,
    and a reader of numbers that knows whole numbers only. *)
Definition two_files : CsvLib := {|
  read_csv := fun path _ _ =>
    if String.eqb path "table.csv" then
      Ret [("id", [Str "1"; Str "2"; Str "3"]);
           ("site", [Str "north"; Str "7"; Str "south"])]
    else if String.eqb path "torn.csv" then
      Raise (ParserError "Error tokenizing data")
    else Raise (OSError path);
  parse_float := fun s =>
    match s with
    | EmptyString => None
    | _ => option_map (fun n => of_Z (Z.of_N n)) (whole_number 0 s)
    end
|}.

(** A serialisation that stores the frame itself, a query language of one
    expression (the first row), and a disk that refuses the empty path. *)
Definition plain_pickle : PickleLib := {|
  bytes := dataset;
  dumps := fun df => df;
  loads := fun b => Ret b;
  query := fun df cond =>
    if String.eqb cond "index < 1"
    then Ret (map (fun p => (fst p, firstn 1 (snd p))) df)
    else Raise (ValueError "invalid expression");
  writable := fun path => negb (String.eqb path EmptyString)
|}.

(** Three directories: trained models, no model, a pickle of data. *)
Definition model_dirs : gmap string (list string) :=
  {[ "models" := ["m#2024-01-01_10-00-00.pkl"; "notes.txt";
                  "m#2024-06-01_09-00-00.pkl"];
     "reports" := ["summary.txt"];
     "data" := ["readings.pkl"] ]}.

(** A regression library whose model is the number of predictor columns
    and whose prediction is the target column it was fitted on. *)
Definition counting_regression : RegressionLib := {|
  model := nat * column;
  fit := fun X y => Ret (length X, y);
  predict := fun fitted X => Ret (snd fitted)
|}.

(** The renaming that undoes [to_model_names]. *)
Definition from_model_names : gmap string string :=
  {[ "y" := "ref"; "x1" := "s1"; "x2" := "s2"; "u" := "unit" ]}.

(** Value mappings for the column of units and for a column that
    [readings] does not have. *)
Definition unit_codes : list (string * gmap string cell) :=
  [("unit", {[ "mm" := Num (of_Z 1); "cm" := Num (of_Z 10) ]});
   ("site", {[ "north" := Str "N" ]})].

(** Two moments, and a joblib that stores the model itself. *)
Definition new_year : datetime :=
  {| year := 2024; month := 1; day := 1; hour := 10; minute := 0; second := 0 |}.

Definition june_first : datetime :=
  {| year := 2024; month := 6; day := 1; hour := 9; minute := 0; second := 0 |}.

Definition plain_joblib : JoblibLib := {|
  jmodel := nat;
  jbytes := nat;
  jdump := fun m => m;
  jload := fun b => Ret b;
  jwritable := fun path => negb (String.prefix "/" path)
|}.

(** The directory of trained models, listed in another order. *)
Definition model_dirs_shuffled : gmap string (list string) :=
  {[ "models" := ["m#2024-06-01_09-00-00.pkl"; "m#2024-01-01_10-00-00.pkl";
                  "notes.txt"] ]}.

End Samples.

(* ===================================================================== *)
(** * Facts about outcomes and frames                                     *)
(* ===================================================================== *)

Module FrameFacts.
Import Frame.

Lemma mapM_ret {A B} (f : A -> outcome B) (g : A -> B) (l : list A) :
  (forall x, In x l -> f x = Ret (g x)) -> mapM f l = Ret (map g l).
Proof.
  induction l as [|x l IH]; intros Hf; simpl; [reflexivity|].
  rewrite (Hf x) by (left; reflexivity). simpl.
  rewrite IH by (intros y Hy; apply Hf; right; exact Hy).
  reflexivity.
Qed.

Lemma has_column_getitem (df : dataset) (col : string) :
  has_column df col = match getitem df col with Some _ => true | None => false end.
Proof.
  unfold has_column, columns.
  induction df as [|[l c] df IH]; simpl; [reflexivity|].
  destruct (String.eqb col l); simpl; [reflexivity|exact IH].
Qed.

Lemma has_column_In (df : dataset) (col : string) :
  has_column df col = true <-> In col (columns df).
Proof.
  unfold has_column. rewrite existsb_exists. split.
  - intros [x [Hin Heq]]. apply String.eqb_eq in Heq. subst. exact Hin.
  - intros Hin. exists col. split; [exact Hin|apply String.eqb_refl].
Qed.

Lemma column_op_num (f : cell -> cell -> outcome cell)
    (g : spec_float -> spec_float -> spec_float) (xs rs : list spec_float) :
  (forall x r, f (Num x) (Num r) = Ret (Num (g x r))) ->
  column_op f (Num <$> xs) (Num <$> rs) = Ret (Num <$> zip_with g xs rs).
Proof.
  intros Hf. unfold column_op.
  revert rs. induction xs as [|x xs IH]; intros [|r rs]; simpl; try reflexivity.
  rewrite Hf. simpl. rewrite IH. reflexivity.
Qed.

End FrameFacts.

(* ===================================================================== *)
(** * Facts about EDAStatisticalAnalysis                                  *)
(* ===================================================================== *)

Module EDAFacts.
Import Frame DataEDA FrameFacts Samples.

(** ** error_analysis *)

Lemma select_numeric (df : dataset) (M : list (string * list spec_float)) :
  Forall (fun p => getitem df (fst p) = Some (Num <$> snd p)) M ->
  select df (map fst M) = Ret (map (fun p => (fst p, Num <$> snd p)) M).
Proof.
  intros HM. unfold select.
  induction HM as [|p M Hp HM IH]; simpl; [reflexivity|].
  unfold getitem_series at 1. rewrite Hp. simpl. rewrite IH. reflexivity.
Qed.

Lemma frame_op_numeric (f : cell -> cell -> outcome cell)
    (g : spec_float -> spec_float -> spec_float)
    (M : list (string * list spec_float)) (rs : list spec_float) :
  (forall x r, f (Num x) (Num r) = Ret (Num (g x r))) ->
  frame_op f (map (fun p => (fst p, Num <$> snd p)) M) (Num <$> rs)
  = Ret (map (fun p => (fst p, Num <$> zip_with g (snd p) rs)) M).
Proof.
  intros Hf. unfold frame_op.
  induction M as [|p M IH]; simpl; [reflexivity|].
  rewrite (column_op_num f g) by exact Hf. simpl. rewrite IH. reflexivity.
Qed.

Lemma frame_abs_numeric (M : list (string * list spec_float)) :
  frame_abs (map (fun p => (fst p, Num <$> snd p)) M)
  = Ret (map (fun p => (fst p, Num <$> (SFabs <$> snd p))) M).
Proof.
  unfold frame_abs.
  induction M as [|p M IH]; simpl; [reflexivity|].
  rewrite (mapM_ret cell_abs (fun c => match c with
                                       | Num x => Num (SFabs x)
                                       | Str s => Str s
                                       end)).
  - simpl. rewrite IH. f_equal. f_equal. f_equal.
    rewrite <- !list_fmap_compose. reflexivity.
  - intros c Hc. apply in_map_iff in Hc as [x [<- _]]. reflexivity.
Qed.

Lemma fillna0_replace_inf (q : spec_float) :
  cell_fillna0 (cell_replace_inf (Num q))
  = Num (if is_inf q || is_nan q then zero else q).
Proof. destruct q; reflexivity. Qed.

Lemma abs_error_zip (xs rs : list spec_float) :
  SFabs <$> zip_with (SFsub prec emax) xs rs = zip_with abs_error xs rs.
Proof.
  revert rs. induction xs as [|x xs IH]; intros [|r rs]; simpl; try reflexivity.
  f_equal. apply IH.
Qed.

Lemma rel_error_zip (xs rs : list spec_float) :
  (fun q => cell_fillna0 (cell_replace_inf (Num q)))
    <$> zip_with (SFdiv prec emax) (zip_with abs_error xs rs) rs
  = Num <$> zip_with rel_error xs rs.
Proof.
  revert rs. induction xs as [|x xs IH]; intros [|r rs]; try reflexivity.
  cbn [zip_with fmap list_fmap].
  rewrite fillna0_replace_inf. f_equal. apply IH.
Qed.

(** The frames [error_analysis] returns on numeric columns, in closed
    form. *)
Lemma error_analysis_numeric (df : dataset) (reference_col : string)
    (rs : list spec_float) (M : list (string * list spec_float)) :
  getitem df reference_col = Some (Num <$> rs) ->
  Forall (fun p => getitem df (fst p) = Some (Num <$> snd p)) M ->
  error_analysis df reference_col (map fst M)
  = (Val (map (fun p => (fst p, Num <$> zip_with abs_error (snd p) rs)) M),
     Some (map (fun p => (fst p, Num <$> zip_with rel_error (snd p) rs)) M)).
Proof.
  intros Href HM.
  unfold error_analysis, error_analysis_body.
  rewrite has_column_getitem, Href. simpl.
  assert (existsb (fun col => negb (has_column df col)) (map fst M) = false) as ->.
  { apply not_true_is_false. intros Hex.
    apply existsb_exists in Hex as [col [Hin Hcol]].
    apply in_map_iff in Hin as [p [<- Hp]].
    rewrite Forall_forall in HM. specialize (HM p).
    rewrite has_column_getitem, HM in Hcol; [discriminate|].
    apply list_elem_of_In. exact Hp. }
  rewrite (select_numeric df M HM). simpl.
  unfold getitem_series. rewrite Href. simpl.
  rewrite (frame_op_numeric cell_sub (SFsub prec emax)) by reflexivity. simpl.
  pose (D := map (fun p : string * list spec_float =>
                    (fst p, zip_with (SFsub prec emax) (snd p) rs)) M).
  assert (map (fun p : string * list spec_float =>
                 (fst p, Num <$> zip_with (SFsub prec emax) (snd p) rs)) M
          = map (fun p => (fst p, Num <$> snd p)) D) as ->.
  { unfold D. rewrite map_map. reflexivity. }
  rewrite frame_abs_numeric. simpl.
  pose (E := map (fun p : string * list spec_float => (fst p, SFabs <$> snd p)) D).
  assert (map (fun p : string * list spec_float =>
                 (fst p, Num <$> (SFabs <$> snd p))) D
          = map (fun p => (fst p, Num <$> snd p)) E) as HE.
  { unfold E. rewrite map_map. reflexivity. }
  rewrite HE.
  rewrite (frame_op_numeric cell_div (SFdiv prec emax)) by reflexivity. simpl.
  rewrite <- HE. unfold E, D, frame_map. rewrite !map_map. simpl.
  f_equal.
  - f_equal. apply map_ext. intros [m xs]. simpl. f_equal. f_equal.
    apply abs_error_zip.
  - f_equal. apply map_ext. intros [m xs]. simpl. f_equal.
    rewrite <- !list_fmap_compose, abs_error_zip.
    apply rel_error_zip.
Qed.

Lemma error_analysis_absent (df : dataset) (reference_col : string)
    (measurement_cols : list string) :
  has_column df reference_col = false \/
  (exists m, In m measurement_cols /\ has_column df m = false) ->
  exists msg, error_analysis df reference_col measurement_cols = (Msg msg, None).
Proof.
  intros Habs. unfold error_analysis, error_analysis_body.
  destruct (has_column df reference_col) eqn:Href; simpl; [|eauto].
  destruct Habs as [Habs|[m [Hin Hm]]]; [discriminate|].
  assert (existsb (fun col => negb (has_column df col)) measurement_cols = true)
    as ->; [|simpl; eauto].
  apply existsb_exists. exists m. rewrite Hm. split; [exact Hin|reflexivity].
Qed.

(** C1, as amended.  ([getitem] reads the one column that carries a label;
    for a label carried by several columns pandas hands out a sub-frame,
    so the statement is for frames with distinct labels.)
    On a frame with distinct labels whose reference
    column [rs] and measurement columns [M] are present and hold numbers
    only, [error_analysis] returns two frames with the measurement labels
    in the order given: the absolute errors [|m - r|], row by row, and the
    relative errors [|m - r| / r] with an infinite or NaN quotient
    replaced by 0.  When the reference column or one of the measurement
    columns is absent it returns a message and [None]. *)
Theorem error_analysis_spec (df : dataset) (reference_col : string)
    (measurement_cols : list string) :
  (forall (rs : list spec_float) (M : list (string * list spec_float)),
      NoDup (columns df) ->
      measurement_cols = map fst M ->
      getitem df reference_col = Some (Num <$> rs) ->
      Forall (fun p => getitem df (fst p) = Some (Num <$> snd p)) M ->
      error_analysis df reference_col measurement_cols
      = (Val (map (fun p => (fst p, Num <$> zip_with abs_error (snd p) rs)) M),
         Some (map (fun p => (fst p, Num <$> zip_with rel_error (snd p) rs)) M)))
  /\ (has_column df reference_col = false \/
      (exists m, In m measurement_cols /\ has_column df m = false) ->
      exists msg,
        error_analysis df reference_col measurement_cols = (Msg msg, None)).
Proof.
  split.
  - intros rs M _ -> Href HM. apply error_analysis_numeric; assumption.
  - apply error_analysis_absent.
Qed.

(** The theorem at [readings]: the errors of [s1] and [s2] against [ref],
    and the message for a label that no column carries. *)
Lemma error_analysis_spec_witness :
  error_analysis readings "ref" ["s1"; "s2"]
  = (Val [("s1", [Num (of_Z 1); Num (of_Z 1); Num zero]);
          ("s2", [Num (of_Z 1); Num zero; Num (of_Z 4)])],
     Some [("s1", [Num (S754_finite false 4503599627370496 (-53));
                   Num zero; Num zero]);
           ("s2", [Num (S754_finite false 4503599627370496 (-53));
                   Num zero; Num (of_Z 1)])])
  /\ exists msg, error_analysis readings "ref" ["s1"; "s3"] = (Msg msg, None).
Proof.
  split.
  - apply (proj1 (error_analysis_spec readings "ref" ["s1"; "s2"])
             [of_Z 2; of_Z 0; of_Z 4]
             [("s1", [of_Z 3; of_Z 1; of_Z 4]);
              ("s2", [of_Z 1; of_Z 0; of_Z 8])]).
    + apply (bool_decide_unpack _). vm_compute. exact I.
    + reflexivity.
    + reflexivity.
    + repeat constructor.
  - apply (proj2 (error_analysis_spec readings "ref" ["s1"; "s3"])).
    right. exists "s3". split; [simpl; tauto|reflexivity].
Defined.

(** C1 as stated fails: every named column is present, yet a text in the
    measurement column makes the subtraction raise, and the handler
    returns the message and [None]. *)
Lemma error_analysis_text_column :
  has_column readings "ref" = true /\
  has_column readings "unit" = true /\
  exists msg, error_analysis readings "ref" ["unit"] = (Msg msg, None).
Proof. repeat split. eexists. reflexivity. Qed.

(** The message is that of the [TypeError]. *)
Example text_column_type_error :
  error_analysis readings "ref" ["unit"]
  = (Msg "unsupported operand type(s) for -: 'str' and 'float'", None).
Proof. reflexivity. Qed.

Section WithLib.
Context `{StatsLib}.

(** ** anova_test *)

(** C6.  With fewer than two names [anova_test] returns the message of its
    own [ValueError] and [None]; [f_oneway] is not consulted. *)
Theorem anova_test_too_few (df : dataset) (measurement_cols : list string) :
  (length measurement_cols < 2)%nat ->
  anova_test df measurement_cols
  = (Msg "At least two columns are required for ANOVA.", None).
Proof.
  intros Hlen. unfold anova_test, anova_test_body.
  apply Nat.ltb_lt in Hlen. rewrite Hlen. reflexivity.
Qed.

Lemma present_columns_read (df : dataset) (cols : list string) :
  exists measurements,
    mapM (getitem_series df) (List.filter (fun col => has_column df col) cols)
    = Ret measurements /\
    Forall2 (fun col c => getitem df col = Some c)
      (List.filter (fun col => has_column df col) cols) measurements.
Proof.
  induction cols as [|col cols [ms [Hms Hall]]].
  - exists []. split; [reflexivity|constructor].
  - simpl. destruct (has_column df col) eqn:Hc.
    + rewrite has_column_getitem in Hc.
      destruct (getitem df col) as [c|] eqn:Hget; [|discriminate].
      exists (c :: ms). split.
      * simpl. unfold getitem_series at 1. rewrite Hget. simpl.
        rewrite Hms. reflexivity.
      * constructor; assumption.
    + exists ms. split; assumption.
Qed.

(** C8.  With two names or more, the columns handed to [f_oneway] are the
    columns of the listed names that the frame has, in the order of the
    list; a name the frame lacks is left out and raises nothing.  The
    result is that of [f_oneway] on them (its exception, if it raises one,
    as a message with [None]). *)
Theorem anova_test_drops_absent (df : dataset) (measurement_cols : list string) :
  (2 <= length measurement_cols)%nat ->
  exists measurements,
    Forall2 (fun col c => getitem df col = Some c)
      (List.filter (fun col => has_column df col) measurement_cols)
      measurements /\
    anova_test df measurement_cols
    = match f_oneway measurements with
      | Ret (f_val, p_val) => (Val f_val, Some p_val)
      | Raise e => (Msg (str e), None)
      end.
Proof.
  intros Hlen. unfold anova_test, anova_test_body.
  assert ((length measurement_cols <? 2)%nat = false) as ->
    by (apply Nat.ltb_ge; exact Hlen).
  destruct (present_columns_read df measurement_cols) as [ms [Hms Hall]].
  exists ms. split; [exact Hall|]. rewrite Hms. reflexivity.
Qed.

(** ** summary_statistics *)

(** C3, as amended.  [summary_statistics] calls four methods of the class,
    never [linear_regression_model], and always returns a dictionary:
    either the single entry ["Error"] (when [descriptive_statistics]
    raised), or the five fixed keys holding what the four methods
    returned, a failed method showing as its message and [None]. *)
Theorem summary_statistics_spec (df : dataset) (reference_col : string)
    (measurement_cols : list string) :
  let calls := fst (summary_statistics df reference_col measurement_cols) in
  let result := snd (summary_statistics df reference_col measurement_cols) in
  ~ In LinearRegressionModel calls /\
  exists d, result = Ret d /\
    ((exists e, descriptive_statistics df = Raise e /\
                calls = [DescriptiveStatistics] /\
                d = [("Error", VStr (str e))])
     \/
     (exists desc_stats, descriptive_statistics df = Ret desc_stats /\
        calls = [DescriptiveStatistics; CorrelationMatrix;
                 ErrorAnalysis; AnovaTest] /\
        d = [("Descriptive Statistics", VFrame desc_stats);
             ("Correlation Matrix", value_of_frame (correlation_matrix df));
             ("Absolute Errors",
              value_of_frame
                (fst (error_analysis df reference_col measurement_cols)));
             ("Relative Errors",
              value_of_option VFrame
                (snd (error_analysis df reference_col measurement_cols)));
             ("ANOVA Result",
              VTuple
                (value_of_float (fst (anova_test df measurement_cols)))
                (value_of_option VFloat
                   (snd (anova_test df measurement_cols))))])).
Proof.
  unfold summary_statistics.
  destruct (descriptive_statistics df) as [desc|e] eqn:Hdesc; simpl.
  - destruct (error_analysis df reference_col measurement_cols)
      as [error_abs error_rel]. simpl.
    split; [intuition discriminate|].
    eexists. split; [reflexivity|]. right. eauto.
  - split; [intuition discriminate|].
    eexists. split; [reflexivity|]. left. eauto.
Qed.

End WithLib.

(** The theorem at a list of one name. *)
Lemma anova_test_too_few_witness :
  anova_test (H := fixed_stats) readings ["s1"]
  = (Msg "At least two columns are required for ANOVA.", None).
Proof. apply anova_test_too_few. simpl. lia. Defined.

(** The theorem at a list of three names, one of them absent: [f_oneway]
    receives the two columns present. *)
Lemma anova_test_drops_absent_witness :
  exists measurements,
    Forall2 (fun col c => getitem readings col = Some c)
      (List.filter (fun col => has_column readings col) ["s1"; "s3"; "s2"])
      measurements /\
    anova_test (H := fixed_stats) readings ["s1"; "s3"; "s2"]
    = match f_oneway (StatsLib := fixed_stats) measurements with
      | Ret (f_val, p_val) => (Val f_val, Some p_val)
      | Raise e => (Msg (str e), None)
      end.
Proof. apply anova_test_drops_absent. simpl. lia. Defined.

(** [f_oneway] receives the two columns that are present. *)
Example anova_test_two_of_three :
  anova_test (H := fixed_stats) readings ["s1"; "s3"; "s2"]
  = (Val (of_Z 2), Some zero).
Proof. reflexivity. Qed.

(** C3 as stated fails: on [readings] the calls are the four below, the
    regression is not among them, and no key holds a regression. *)
Lemma summary_statistics_skips_regression :
  fst (summary_statistics (H := fixed_stats) readings "ref" ["s1"; "s2"])
  = [DescriptiveStatistics; CorrelationMatrix; ErrorAnalysis; AnovaTest] /\
  ~ In LinearRegressionModel
      (fst (summary_statistics (H := fixed_stats) readings "ref" ["s1"; "s2"])) /\
  (exists d,
      snd (summary_statistics (H := fixed_stats) readings "ref" ["s1"; "s2"])
      = Ret d /\
      map fst d = ["Descriptive Statistics"; "Correlation Matrix";
                   "Absolute Errors"; "Relative Errors"; "ANOVA Result"]).
Proof.
  split; [reflexivity|]. split.
  - simpl. intuition discriminate.
  - eexists. split; reflexivity.
Qed.

End EDAFacts.

(* ===================================================================== *)
(** * Facts about DataLoader                                              *)
(* ===================================================================== *)

Module LoaderFacts.
Import Frame DataLoader FrameFacts Samples.

(** ** transform_json_keys *)

Lemma map_columns_complete (mapping : gmap string string) (cols : list string) :
  (forall col, In col cols -> is_Some (mapping !! col)) ->
  exists new_columns,
    map_columns mapping cols = Ret new_columns /\
    Forall2 (fun old new => mapping !! old = Some new) cols new_columns.
Proof.
  unfold map_columns.
  induction cols as [|col cols IH]; intros Hall.
  - exists []. split; [reflexivity|constructor].
  - destruct (Hall col (or_introl eq_refl)) as [new Hnew].
    destruct IH as [news [Hnews HF]].
    { intros c Hc. apply Hall. right. exact Hc. }
    exists (new :: news). split.
    + simpl. rewrite Hnew. simpl. rewrite Hnews. reflexivity.
    + constructor; assumption.
Qed.

Lemma map_columns_missing (mapping : gmap string string) (cols : list string) :
  (exists col, In col cols /\ mapping !! col = None) ->
  exists msg, map_columns mapping cols = Raise (KeyError msg).
Proof.
  unfold map_columns.
  induction cols as [|c cols IH]; intros [col [Hin Hnone]]; [destruct Hin|].
  simpl. destruct (mapping !! c) as [new|] eqn:Hc; simpl; [|eauto].
  destruct Hin as [->|Hin]; [congruence|].
  destruct IH as [msg ->]; [eauto|]. simpl. eauto.
Qed.

Lemma set_columns_same_length (df : dataset) (new_columns : list string) :
  length new_columns = length df ->
  exists df',
    set_columns df new_columns = Ret df' /\
    columns df' = new_columns /\ map snd df' = map snd df.
Proof.
  intros Hlen. unfold set_columns.
  apply Nat.eqb_eq in Hlen as Hb. rewrite Hb.
  eexists. split; [reflexivity|].
  clear Hb. unfold columns.
  revert df Hlen. induction new_columns as [|n ns IH]; intros [|p df] Hlen;
    simpl in *; try discriminate; [split; reflexivity|].
  destruct (IH df) as [H1 H2]; [lia|]. rewrite H1, H2. split; reflexivity.
Qed.

(** A complete mapping: the store after the call, in closed form. *)
Lemma transform_json_keys_success (h : gmap loc dataset) (input_data : loc)
    (df : dataset) (mapping : gmap string string) :
  h !! input_data = Some df ->
  (forall col, In col (columns df) -> is_Some (mapping !! col)) ->
  exists df',
    transform_json_keys h input_data mapping
    = (<[input_data := df']> h, Ret input_data) /\
    Forall2 (fun old new => mapping !! old = Some new) (columns df) (columns df') /\
    map snd df' = map snd df.
Proof.
  intros Hh Hall. unfold transform_json_keys. rewrite Hh.
  destruct (map_columns_complete mapping (columns df) Hall) as [news [-> HF]].
  destruct (set_columns_same_length df news) as [df' [-> [Hcols Hdata]]].
  { apply Forall2_length in HF. unfold columns in HF.
    rewrite length_map in HF. symmetry. exact HF. }
  exists df'. rewrite Hcols. auto.
Qed.

(** C2.  All or nothing: when a label of the frame has no entry in the
    mapping the call raises [KeyError] and the store, hence the frame and
    its labels, is as before; when every label has an entry the frame gets
    the mapped labels, position by position, over the same columns. *)
Theorem transform_json_keys_all_or_nothing (h : gmap loc dataset)
    (input_data : loc) (df : dataset) (mapping : gmap string string) :
  h !! input_data = Some df ->
  ((exists col, In col (columns df) /\ mapping !! col = None) ->
   exists msg,
     transform_json_keys h input_data mapping = (h, Raise (KeyError msg)))
  /\
  ((forall col, In col (columns df) -> is_Some (mapping !! col)) ->
   exists df',
     transform_json_keys h input_data mapping
     = (<[input_data := df']> h, Ret input_data) /\
     Forall2 (fun old new => mapping !! old = Some new)
       (columns df) (columns df') /\
     map snd df' = map snd df).
Proof.
  intros Hh. split.
  - intros Hmiss. unfold transform_json_keys. rewrite Hh.
    destruct (map_columns_missing mapping (columns df) Hmiss) as [msg ->].
    eauto.
  - apply transform_json_keys_success. exact Hh.
Qed.

(** C10.  On success the call returns the reference it was given, the
    frame behind that reference now carries the mapped labels over the
    columns it had, cell for cell, and the store holds the same objects
    as before: no copy was made. *)
Theorem transform_json_keys_in_place (h : gmap loc dataset)
    (input_data : loc) (df : dataset) (mapping : gmap string string) :
  h !! input_data = Some df ->
  (forall col, In col (columns df) -> is_Some (mapping !! col)) ->
  exists h' df',
    transform_json_keys h input_data mapping = (h', Ret input_data) /\
    h' !! input_data = Some df' /\
    Forall2 (fun old new => mapping !! old = Some new)
      (columns df) (columns df') /\
    map snd df' = map snd df /\
    dom h' = dom h /\
    (forall l, l <> input_data -> h' !! l = h !! l).
Proof.
  intros Hh Hall.
  destruct (transform_json_keys_success h input_data df mapping Hh Hall)
    as [df' [Heq [HF Hdata]]].
  exists (<[input_data := df']> h), df'. repeat split.
  - exact Heq.
  - apply lookup_insert_eq.
  - exact HF.
  - exact Hdata.
  - rewrite dom_insert_L. apply subseteq_union_1_L, singleton_subseteq_l.
    apply elem_of_dom_2 in Hh. exact Hh.
  - intros l Hl. apply lookup_insert_ne. congruence.
Qed.

(** The two theorems at the store [one_frame]: a complete renaming, and a
    mapping that lacks ["unit"]. *)
Lemma transform_json_keys_all_or_nothing_witness :
  (exists msg,
      transform_json_keys one_frame 7%nat (delete "unit" to_model_names)
      = (one_frame, Raise (KeyError msg)))
  /\
  (exists df',
      transform_json_keys one_frame 7%nat to_model_names
      = (<[7%nat := df']> one_frame, Ret 7%nat) /\
      Forall2 (fun old new => to_model_names !! old = Some new)
        (columns readings) (columns df') /\
      map snd df' = map snd readings).
Proof.
  split.
  - apply (proj1 (transform_json_keys_all_or_nothing one_frame 7%nat readings
                    (delete "unit" to_model_names) eq_refl)).
    exists "unit". split; [simpl; tauto|reflexivity].
  - apply (proj2 (transform_json_keys_all_or_nothing one_frame 7%nat readings
                    to_model_names eq_refl)).
    intros col Hcol. simpl in Hcol.
    destruct Hcol as [<-|[<-|[<-|[<-|[]]]]]; eexists; reflexivity.
Defined.

Lemma transform_json_keys_in_place_witness :
  exists h' df',
    transform_json_keys one_frame 7%nat to_model_names = (h', Ret 7%nat) /\
    h' !! 7%nat = Some df' /\
    Forall2 (fun old new => to_model_names !! old = Some new)
      (columns readings) (columns df') /\
    map snd df' = map snd readings /\
    dom h' = dom one_frame /\
    (forall l, l <> 7%nat -> h' !! l = one_frame !! l).
Proof.
  apply (transform_json_keys_in_place one_frame 7%nat readings to_model_names
           eq_refl).
  intros col Hcol. simpl in Hcol.
  destruct Hcol as [<-|[<-|[<-|[<-|[]]]]]; eexists; reflexivity.
Defined.

(** The renaming of [readings]: new labels, same columns, same place. *)
Example transform_json_keys_readings :
  transform_json_keys one_frame 7%nat to_model_names
  = ({[ 7%nat := [("y", [Num (of_Z 2); Num (of_Z 0); Num (of_Z 4)]);
                  ("x1", [Num (of_Z 3); Num (of_Z 1); Num (of_Z 4)]);
                  ("x2", [Num (of_Z 1); Num (of_Z 0); Num (of_Z 8)]);
                  ("u", [Str "mm"; Str "mm"; Str "mm"])] ]},
     Ret 7%nat).
Proof. vm_compute. reflexivity. Qed.

Example transform_json_keys_partial :
  transform_json_keys one_frame 7%nat (delete "unit" to_model_names)
  = (one_frame,
     Raise (KeyError "La columna 'unit' no tiene un mapeo en el modelo.")).
Proof. vm_compute. reflexivity. Qed.

(** ** load_data_csv *)

Lemma getitem_app_notin (pre rest : dataset) (l : string) :
  ~ In l (columns pre) -> getitem (pre ++ rest) l = getitem rest l.
Proof.
  induction pre as [|[l' c'] pre IH]; intros Hnotin; simpl; [reflexivity|].
  destruct (String.eqb_spec l l') as [->|Hne].
  - exfalso. apply Hnotin. left. reflexivity.
  - apply IH. intros Hin. apply Hnotin. right. exact Hin.
Qed.

Lemma relabel_notin (frame : dataset) (l : string) (v : column) :
  ~ In l (columns frame) ->
  map (fun p => if String.eqb l (fst p) then (fst p, v) else p) frame = frame.
Proof.
  induction frame as [|[l' c'] frame IH]; intros Hnotin; simpl; [reflexivity|].
  destruct (String.eqb_spec l l') as [->|Hne].
  - exfalso. apply Hnotin. left. reflexivity.
  - f_equal. apply IH. intros Hin. apply Hnotin. right. exact Hin.
Qed.

Lemma setitem_middle (pre post : dataset) (l : string) (c v : column) :
  ~ In l (columns pre) -> ~ In l (columns post) ->
  setitem (pre ++ (l, c) :: post) l v = pre ++ (l, v) :: post.
Proof.
  intros Hpre Hpost. unfold setitem.
  assert (has_column (pre ++ (l, c) :: post) l = true) as ->.
  { apply has_column_In. unfold columns. rewrite map_app. apply in_or_app.
    right. left. reflexivity. }
  rewrite map_app. simpl. rewrite String.eqb_refl.
  rewrite !relabel_notin by assumption. reflexivity.
Qed.

Lemma columns_setitem (data : dataset) (l : string) (v : column) :
  has_column data l = true -> columns (setitem data l v) = columns data.
Proof.
  intros Hl. unfold setitem. rewrite Hl. unfold columns. rewrite map_map.
  apply map_ext. intros p. destruct (String.eqb l (fst p)); reflexivity.
Qed.

Section WithCsv.
Context `{CsvLib}.

Lemma coerce_column_middle (pre post : dataset) (l : string) (c : column) :
  ~ In l (columns pre) -> ~ In l (columns post) ->
  coerce_column (pre ++ (l, c) :: post) l
  = Ret (pre ++ (l, if isna_any (to_numeric c) then c else to_numeric c) :: post).
Proof.
  intros Hpre Hpost. unfold coerce_column, getitem_series.
  rewrite getitem_app_notin by exact Hpre. simpl. rewrite String.eqb_refl. simpl.
  rewrite setitem_middle by assumption.
  rewrite getitem_app_notin by exact Hpre. simpl. rewrite String.eqb_refl. simpl.
  destruct (isna_any (to_numeric c)); [|reflexivity].
  rewrite setitem_middle by assumption. reflexivity.
Qed.

Lemma coerce_columns_from (pre post : dataset) :
  NoDup (columns (pre ++ post)) ->
  coerce_columns (pre ++ post) (columns post)
  = Ret (pre ++ map (fun p => (fst p, if isna_any (to_numeric (snd p))
                                      then snd p else to_numeric (snd p))) post).
Proof.
  revert pre. induction post as [|[l c] post IH]; intros pre Hnd; simpl.
  - reflexivity.
  - unfold columns in Hnd. rewrite map_app in Hnd. simpl in Hnd.
    apply NoDup_app in Hnd as [Hpre [Hcross Hpost]].
    apply NoDup_cons in Hpost as [Hl Hpost].
    rewrite coerce_column_middle.
    + simpl.
      set (c' := if isna_any (to_numeric c) then c else to_numeric c).
      replace (pre ++ (l, c') :: post) with ((pre ++ [(l, c')]) ++ post)
        by (rewrite <- app_assoc; reflexivity).
      rewrite IH.
      * rewrite <- app_assoc. reflexivity.
      * unfold columns. rewrite !map_app. simpl. rewrite <- app_assoc. simpl.
        apply NoDup_app. repeat split; try assumption.
        apply NoDup_cons. split; assumption.
    + intros Hin. apply (Hcross l); [apply list_elem_of_In; exact Hin|].
      left.
    + intros Hin. apply Hl. apply list_elem_of_In. exact Hin.
Qed.

Lemma coerce_column_returns (data : dataset) (l : string) :
  has_column data l = true ->
  exists data',
    coerce_column data l = Ret data' /\ columns data' = columns data.
Proof.
  intros Hl. unfold coerce_column, getitem_series.
  pose proof Hl as Hget. rewrite has_column_getitem in Hget.
  destruct (getitem data l) as [c|]; [|discriminate]. simpl.
  assert (has_column (setitem data l (to_numeric c)) l = true) as Hl1.
  { apply has_column_In. rewrite columns_setitem by exact Hl.
    apply has_column_In. exact Hl. }
  pose proof Hl1 as Hget1. rewrite has_column_getitem in Hget1.
  destruct (getitem (setitem data l (to_numeric c)) l) as [c1|]; [|discriminate].
  simpl. destruct (isna_any c1); eexists; split; try reflexivity.
  - rewrite !columns_setitem by assumption. reflexivity.
  - rewrite columns_setitem by assumption. reflexivity.
Qed.

Lemma coerce_columns_returns (cols : list string) (data : dataset) :
  (forall l, In l cols -> has_column data l = true) ->
  exists data', coerce_columns data cols = Ret data'.
Proof.
  revert data. induction cols as [|l cols IH]; intros data Hall; simpl.
  - eauto.
  - destruct (coerce_column_returns data l) as [data1 [-> Hcols]].
    { apply Hall. left. reflexivity. }
    simpl. apply IH. intros l' Hl'.
    apply has_column_In. rewrite Hcols. apply has_column_In.
    apply Hall. right. exact Hl'.
Qed.

(** C4.  When the file parses into a frame (its labels distinct, as
    [read_csv] makes them), the frame returned has the same labels in the
    same order, and each column is either the converted column, when the
    conversion holds no NaN, or the column as it was read, whole. *)
Theorem load_data_csv_all_or_nothing (filename_path encoding delimiter : string)
    (data : dataset) :
  read_csv filename_path encoding delimiter = Ret data ->
  NoDup (columns data) ->
  load_data_csv filename_path encoding delimiter
  = Ret (Some (map (fun p => (fst p, if isna_any (to_numeric (snd p))
                                     then snd p
                                     else to_numeric (snd p))) data)).
Proof.
  intros Hread Hnd. unfold load_data_csv. rewrite Hread. unfold bind.
  pose proof (coerce_columns_from [] data Hnd) as Hloop.
  rewrite !app_nil_l in Hloop. rewrite Hloop. reflexivity.
Qed.

(** C9.  [None] is returned exactly when [read_csv] raised [ParserError];
    any other exception of [read_csv] leaves the call as it is. *)
Theorem load_data_csv_none_only_on_parse_error
    (filename_path encoding delimiter : string) :
  (load_data_csv filename_path encoding delimiter = Ret None <->
   exists msg, read_csv filename_path encoding delimiter = Raise (ParserError msg))
  /\
  (forall e, read_csv filename_path encoding delimiter = Raise e ->
             (forall msg, e <> ParserError msg) ->
             load_data_csv filename_path encoding delimiter = Raise e).
Proof.
  unfold load_data_csv.
  destruct (read_csv filename_path encoding delimiter) as [data|e] eqn:Hread;
    simpl.
  - destruct (coerce_columns_returns (columns data) data) as [data' ->].
    { intros l Hl. apply has_column_In. exact Hl. }
    split; [|intros e He; discriminate].
    split; [discriminate|intros [msg Hmsg]; discriminate].
  - split.
    + split.
      * destruct e; try discriminate. eauto.
      * intros [msg Hmsg]. injection Hmsg as ->. reflexivity.
    + intros e' He' Hne. injection He' as <-.
      destruct e; try reflexivity. exfalso. eapply Hne. reflexivity.
Qed.

End WithCsv.

(** The theorem at [table.csv]: the column of whole numbers is converted,
    the column with two words is kept as read, 7 included. *)
Lemma load_data_csv_all_or_nothing_witness :
  load_data_csv (H := two_files) "table.csv" "latin1" ";"
  = Ret (Some [("id", [Num (of_Z 1); Num (of_Z 2); Num (of_Z 3)]);
               ("site", [Str "north"; Str "7"; Str "south"])]).
Proof.
  apply (load_data_csv_all_or_nothing (H := two_files) "table.csv" "latin1" ";"
           [("id", [Str "1"; Str "2"; Str "3"]);
            ("site", [Str "north"; Str "7"; Str "south"])]).
  - reflexivity.
  - apply (bool_decide_unpack _). vm_compute. exact I.
Defined.

(** The theorem at a file that does not parse and at a path with no
    file. *)
Lemma load_data_csv_none_only_on_parse_error_witness :
  load_data_csv (H := two_files) "torn.csv" "latin1" ";" = Ret None /\
  load_data_csv (H := two_files) "absent.csv" "latin1" ";"
  = Raise (OSError "absent.csv").
Proof.
  split.
  - apply (proj1 (load_data_csv_none_only_on_parse_error (H := two_files)
                    "torn.csv" "latin1" ";")).
    eexists. reflexivity.
  - apply (proj2 (load_data_csv_none_only_on_parse_error (H := two_files)
                    "absent.csv" "latin1" ";")).
    + reflexivity.
    + intros msg. discriminate.
Defined.

(** ** save_data_pickle, load_data_pickle *)

Section WithPickle.
Context `{PickleLib}.

(** What [pickle] promises: loading what was dumped gives it back. *)
Hypothesis loads_dumps : forall df, loads (dumps df) = Ret df.

(** C7.  On a path that can be written, saving a frame and loading the
    path gives the frame back; with a filter condition (a query that is
    not the empty text and that the frame answers with [subset]) it gives
    [subset]. *)
Theorem pickle_round_trip (fs : gmap string bytes) (data : dataset)
    (filename_path : string) :
  writable filename_path = true ->
  (exists fs',
      save_data_pickle fs data filename_path None = (fs', Ret tt) /\
      load_data_pickle fs' filename_path = Ret data)
  /\
  (forall cond subset,
      cond <> EmptyString ->
      query data cond = Ret subset ->
      exists fs',
        save_data_pickle fs data filename_path (Some cond) = (fs', Ret tt) /\
        load_data_pickle fs' filename_path = Ret subset).
Proof.
  intros Hw. split.
  - unfold save_data_pickle. rewrite Hw. eexists. split; [reflexivity|].
    unfold load_data_pickle. rewrite lookup_insert_eq. apply loads_dumps.
  - intros cond subset Hcond Hq. unfold save_data_pickle.
    apply String.eqb_neq in Hcond. rewrite Hcond, Hq, Hw.
    eexists. split; [reflexivity|].
    unfold load_data_pickle. rewrite lookup_insert_eq. apply loads_dumps.
Qed.

End WithPickle.

(** The theorem at [readings], whole and cut to its first row. *)
Lemma pickle_round_trip_witness :
  (exists fs',
      save_data_pickle (H := plain_pickle) ∅ readings "readings.pkl" None
      = (fs', Ret tt) /\
      load_data_pickle (H := plain_pickle) fs' "readings.pkl" = Ret readings)
  /\
  (exists fs',
      save_data_pickle (H := plain_pickle) ∅ readings "readings.pkl"
        (Some "index < 1") = (fs', Ret tt) /\
      load_data_pickle (H := plain_pickle) fs' "readings.pkl"
      = Ret [("ref", [Num (of_Z 2)]); ("s1", [Num (of_Z 3)]);
             ("s2", [Num (of_Z 1)]); ("unit", [Str "mm"])]).
Proof.
  pose proof (pickle_round_trip (H := plain_pickle) (fun df => eq_refl)
                ∅ readings "readings.pkl" eq_refl) as [Hwhole Hcut].
  split; [exact Hwhole|].
  apply (Hcut "index < 1"); [discriminate|reflexivity].
Defined.

(** ** get_last_trained_model_name *)

Lemma lex_compare_antisym (a b : list N) :
  lex_compare b a = CompOpp (lex_compare a b).
Proof.
  revert b. induction a as [|x a IH]; intros [|y b]; simpl; try reflexivity.
  rewrite (N.compare_antisym x y).
  destruct (x ?= y)%N; simpl; [apply IH|reflexivity|reflexivity].
Qed.

Lemma lex_compare_Eq (a b : list N) : lex_compare a b = Eq -> a = b.
Proof.
  revert b. induction a as [|x a IH]; intros [|y b]; simpl;
    try discriminate; [reflexivity|].
  destruct (x ?= y)%N eqn:Hxy; try discriminate.
  apply N.compare_eq in Hxy. intros Hab. f_equal; [exact Hxy|apply IH, Hab].
Qed.

Lemma lex_compare_Lt_trans (a b c : list N) :
  lex_compare a b = Lt -> lex_compare b c = Lt -> lex_compare a c = Lt.
Proof.
  revert b c. induction a as [|x a IH]; intros [|y b] [|z c]; simpl;
    try discriminate; try reflexivity.
  destruct (x ?= y)%N eqn:Hxy; try discriminate;
    destruct (y ?= z)%N eqn:Hyz; try discriminate.
  - apply N.compare_eq in Hxy, Hyz. subst. rewrite N.compare_refl. apply IH.
  - apply N.compare_eq in Hxy. subst. rewrite Hyz. reflexivity.
  - apply N.compare_eq in Hyz. subst. rewrite Hxy. reflexivity.
  - rewrite N.compare_lt_iff in Hxy. rewrite N.compare_lt_iff in Hyz.
    assert ((x ?= z)%N = Lt) as ->; [|reflexivity].
    apply N.compare_lt_iff. exact (N.lt_trans _ _ _ Hxy Hyz).
Qed.

Lemma datetime_leb_refl (t : datetime) : datetime_leb t t = true.
Proof.
  unfold datetime_leb, datetime_ltb.
  destruct (lex_compare (fields t) (fields t)) eqn:Hc; try reflexivity.
  pose proof (lex_compare_antisym (fields t) (fields t)) as Ha.
  rewrite Hc in Ha. discriminate.
Qed.

Lemma datetime_ltb_leb (a b : datetime) :
  datetime_ltb a b = true -> datetime_leb a b = true.
Proof.
  unfold datetime_leb, datetime_ltb.
  rewrite (lex_compare_antisym (fields a) (fields b)).
  destruct (lex_compare (fields a) (fields b)); simpl; congruence.
Qed.

Lemma datetime_leb_trans (a b c : datetime) :
  datetime_leb a b = true -> datetime_leb b c = true -> datetime_leb a c = true.
Proof.
  unfold datetime_leb, datetime_ltb. intros Hab Hbc.
  destruct (lex_compare (fields c) (fields a)) eqn:Hca; try reflexivity.
  exfalso.
  destruct (lex_compare (fields b) (fields a)) eqn:Hba; try discriminate.
  - apply lex_compare_Eq in Hba. rewrite Hba in Hbc. rewrite Hca in Hbc.
    discriminate.
  - rewrite (lex_compare_antisym (fields a) (fields b)) in Hba.
    destruct (lex_compare (fields a) (fields b)) eqn:Hab'; try discriminate.
    rewrite (lex_compare_Lt_trans _ _ _ Hca Hab') in Hbc. discriminate.
Qed.

Lemma insert_desc_In (x y : datetime * string) (l : list (datetime * string)) :
  In y (insert_desc x l) <-> y = x \/ In y l.
Proof.
  induction l as [|z l IH]; simpl.
  - intuition.
  - destruct (datetime_ltb (fst x) (fst z)); simpl; [rewrite IH|]; intuition.
Qed.

Lemma sort_desc_In (y : datetime * string) (l : list (datetime * string)) :
  In y (sort_desc l) <-> In y l.
Proof.
  induction l as [|x l IH]; simpl; [reflexivity|].
  rewrite insert_desc_In, IH. intuition.
Qed.

Lemma insert_desc_head (x : datetime * string) (l : list (datetime * string)) :
  head_is_latest l -> head_is_latest (insert_desc x l).
Proof.
  destruct l as [|h l]; simpl.
  - intros _ y [<-|[]]. apply datetime_leb_refl.
  - intros Hmax. destruct (datetime_ltb (fst x) (fst h)) eqn:Hlt; simpl.
    + intros y [<-|Hy]; [apply datetime_leb_refl|].
      apply insert_desc_In in Hy as [->|Hy].
      * apply datetime_ltb_leb. exact Hlt.
      * apply Hmax. right. exact Hy.
    + intros y [<-|Hy]; [apply datetime_leb_refl|].
      apply (datetime_leb_trans _ (fst h)).
      * apply Hmax. exact Hy.
      * unfold datetime_leb. rewrite Hlt. reflexivity.
Qed.

Lemma sort_desc_head (l : list (datetime * string)) :
  head_is_latest (sort_desc l).
Proof.
  induction l as [|x l IH]; simpl; [exact I|].
  apply insert_desc_head. exact IH.
Qed.

Lemma keyed_all (files : list string) :
  Forall (fun f => is_Some (strptime (timestamp_text f))) files ->
  exists keyed,
    mapM (fun x => let* k := sort_key x in Ret (k, x)) files = Ret keyed /\
    forall k x, In (k, x) keyed <->
                In x files /\ strptime (timestamp_text x) = Some k.
Proof.
  induction 1 as [|f files [t Ht] _ [keyed [Hk Hin]]].
  - exists []. split; [reflexivity|]. simpl. intuition.
  - exists ((t, f) :: keyed). split.
    + simpl. unfold sort_key at 1. rewrite Ht. simpl. rewrite Hk. reflexivity.
    + intros k x. simpl. rewrite Hin. split.
      * intros [Heq|[Hx Hs]]; [|tauto].
        injection Heq as <- <-. tauto.
      * intros [[<-|Hx] Hs]; [|tauto].
        left. congruence.
Qed.

Lemma keyed_some_fails (files : list string) :
  Exists (fun f => strptime (timestamp_text f) = None) files ->
  exists msg,
    mapM (fun x => let* k := sort_key x in Ret (k, x)) files
    = Raise (ValueError msg).
Proof.
  induction 1 as [f files Hf|f files _ [msg IH]]; simpl.
  - unfold sort_key. rewrite Hf. simpl. eauto.
  - unfold sort_key at 1.
    destruct (strptime (timestamp_text f)); simpl; [|eauto].
    rewrite IH. simpl. eauto.
Qed.

(** C5, as amended.  For a directory that can be listed: with no name
    ending in [.pkl] the result is [None]; when every name ending in
    [.pkl] carries a timestamp that [strptime] reads, the result is the
    path of such a name whose timestamp no other such name exceeds; when
    some name ending in [.pkl] carries none, the call raises
    [ValueError]. *)
Theorem get_last_trained_model_name_spec (dirs : gmap string (list string))
    (base_path : string) (files : list string) :
  dirs !! base_path = Some files ->
  ((forall f, In f files -> endswith f ".pkl" = false) ->
   get_last_trained_model_name dirs base_path = Ret None)
  /\
  ((exists f, In f files /\ endswith f ".pkl" = true) ->
   (forall f, In f files -> endswith f ".pkl" = true ->
              is_Some (strptime (timestamp_text f))) ->
   exists first t,
     get_last_trained_model_name dirs base_path
     = Ret (Some (path_join base_path first)) /\
     In first files /\ endswith first ".pkl" = true /\
     strptime (timestamp_text first) = Some t /\
     forall g u, In g files -> endswith g ".pkl" = true ->
                 strptime (timestamp_text g) = Some u ->
                 datetime_leb u t = true)
  /\
  ((exists f, In f files /\ endswith f ".pkl" = true /\
              strptime (timestamp_text f) = None) ->
   exists msg,
     get_last_trained_model_name dirs base_path = Raise (ValueError msg)).
Proof.
  intros Hdir. unfold get_last_trained_model_name, listdir. rewrite Hdir.
  simpl.
  set (model_files := List.filter (fun file => endswith file ".pkl") files).
  assert (Hmf : forall f, In f model_files <->
                          In f files /\ endswith f ".pkl" = true).
  { intros f. apply (List.filter_In (fun file => endswith file ".pkl")). }
  clearbody model_files. repeat split.
  - intros Hnone. destruct model_files as [|f fs]; [reflexivity|].
    destruct (proj1 (Hmf f) (or_introl eq_refl)) as [Hf Hpkl].
    rewrite (Hnone f Hf) in Hpkl. discriminate.
  - intros [f0 [Hf0 Hpkl0]] Hall.
    destruct model_files as [|f fs] eqn:Hfs.
    { destruct (proj2 (Hmf f0) (conj Hf0 Hpkl0)). }
    rewrite <- Hfs in *. clear Hfs.
    destruct (keyed_all model_files) as [keyed [Hk Hin]].
    { apply List.Forall_forall. intros x Hx. apply Hmf in Hx as [Hx Hp].
      apply Hall; assumption. }
    unfold sort_by_key_reverse. rewrite Hk. simpl.
    pose proof (sort_desc_head keyed) as Hhead.
    destruct (sort_desc keyed) as [|[t first] rest] eqn:Hs.
    { exfalso.
      destruct (Hall f0 Hf0 Hpkl0) as [t0 Ht0].
      assert (In (t0, f0) keyed) as Hk0 by (apply Hin; split; [apply Hmf|]; auto).
      apply sort_desc_In in Hk0. rewrite Hs in Hk0. destruct Hk0. }
    simpl. exists first, t.
    assert (In (t, first) keyed) as Hfirst
      by (apply sort_desc_In; rewrite Hs; left; reflexivity).
    apply Hin in Hfirst as [Hfirst Ht]. apply Hmf in Hfirst as [Hfirst Hpkl].
    repeat split; try assumption.
    intros g u Hg Hgp Hu.
    apply (Hhead (u, g)). rewrite <- Hs. apply sort_desc_In, Hin.
    split; [apply Hmf; auto|exact Hu].
  - intros [f0 [Hf0 [Hpkl0 Hnone]]].
    destruct model_files as [|f fs] eqn:Hfs.
    { destruct (proj2 (Hmf f0) (conj Hf0 Hpkl0)). }
    rewrite <- Hfs in *. clear Hfs.
    destruct (keyed_some_fails model_files) as [msg Hk].
    { apply List.Exists_exists. exists f0. split; [apply Hmf; auto|exact Hnone]. }
    unfold sort_by_key_reverse. rewrite Hk. simpl. eauto.
Qed.

(** The theorem at the three directories of [model_dirs]. *)
Lemma get_last_trained_model_name_spec_witness :
  get_last_trained_model_name model_dirs "reports" = Ret None
  /\
  (exists first t,
      get_last_trained_model_name model_dirs "models"
      = Ret (Some (path_join "models" first)) /\
      In first ["m#2024-01-01_10-00-00.pkl"; "notes.txt";
                "m#2024-06-01_09-00-00.pkl"] /\
      endswith first ".pkl" = true /\
      strptime (timestamp_text first) = Some t /\
      forall g u,
        In g ["m#2024-01-01_10-00-00.pkl"; "notes.txt";
              "m#2024-06-01_09-00-00.pkl"] ->
        endswith g ".pkl" = true ->
        strptime (timestamp_text g) = Some u ->
        datetime_leb u t = true)
  /\
  (exists msg,
      get_last_trained_model_name model_dirs "data" = Raise (ValueError msg)).
Proof.
  split; [|split].
  - apply (proj1 (get_last_trained_model_name_spec model_dirs "reports"
                    ["summary.txt"] eq_refl)).
    intros f [<-|[]]. reflexivity.
  - apply (proj1 (proj2 (get_last_trained_model_name_spec model_dirs "models"
                           ["m#2024-01-01_10-00-00.pkl"; "notes.txt";
                            "m#2024-06-01_09-00-00.pkl"] eq_refl))).
    + exists "m#2024-01-01_10-00-00.pkl". split; [left|]; reflexivity.
    + intros f [<-|[<-|[<-|[]]]] Hpkl;
        try discriminate; eexists; reflexivity.
  - apply (proj2 (proj2 (get_last_trained_model_name_spec model_dirs "data"
                           ["readings.pkl"] eq_refl))).
    exists "readings.pkl". repeat split. left. reflexivity.
Defined.

(** The example of the specification: of the January and the June model,
    the June one is returned. *)
Lemma get_last_trained_model_name_june :
  get_last_trained_model_name model_dirs "models"
  = Ret (Some "models/m#2024-06-01_09-00-00.pkl").
Proof. reflexivity. Qed.

(** C5 as stated fails: the directory holds one name ending in [.pkl],
    it carries no timestamp, and the call raises instead of returning a
    path. *)
Lemma get_last_trained_model_name_no_timestamp :
  listdir model_dirs "data" = Ret ["readings.pkl"] /\
  endswith "readings.pkl" ".pkl" = true /\
  get_last_trained_model_name model_dirs "data"
  = Raise (ValueError
             "time data 'readings' does not match format '%Y-%m-%d_%H-%M-%S'").
Proof. repeat split. Qed.

End LoaderFacts.

(* ===================================================================== *)
(** * Further facts about EDAStatisticalAnalysis                          *)
(* ===================================================================== *)

Module EDAMore.
Import Frame DataEDA FrameFacts EDAFacts Samples.

Lemma readings_distinct : NoDup (columns readings).
Proof. apply (bool_decide_unpack _). vm_compute. exact I. Qed.

Lemma mapM_Ret_inv {A B} (f : A -> outcome B) (l : list A) (r : list B) :
  mapM f l = Ret r -> Forall2 (fun x y => f x = Ret y) l r.
Proof.
  revert r. induction l as [|x l IH]; simpl; intros r Hr.
  - injection Hr as <-. constructor.
  - destruct (f x) as [y|e] eqn:Hx; simpl in Hr; [|discriminate].
    destruct (mapM f l) as [ys|e] eqn:Hl; simpl in Hr; [|discriminate].
    injection Hr as <-. constructor; [exact Hx|apply IH; reflexivity].
Qed.

Lemma Forall2_In_r {A B} (R : A -> B -> Prop) (l : list A) (r : list B) (y : B) :
  Forall2 R l r -> In y r -> exists x, In x l /\ R x y.
Proof.
  induction 1 as [|x y' l r Hxy _ IH]; simpl; [intros []|].
  intros [<-|Hy]; [exists x; auto|].
  destruct (IH Hy) as [x' [Hx' HR]]. exists x'. auto.
Qed.

Lemma bind_Ret_inv {A B} (m : outcome A) (k : A -> outcome B) (b : B) :
  bind m k = Ret b -> exists a, m = Ret a /\ k a = Ret b.
Proof. destruct m as [a|e]; simpl; [eauto|discriminate]. Qed.

(** ** error_analysis: what a success always looks like *)

Lemma error_analysis_success_inv (df : dataset) (reference_col : string)
    (measurement_cols : list string) (error_abs error_rel : dataset) :
  error_analysis df reference_col measurement_cols
  = (Val error_abs, Some error_rel) ->
  exists sel ref diff quot,
    select df measurement_cols = Ret sel /\
    getitem df reference_col = Some ref /\
    frame_op cell_sub sel ref = Ret diff /\
    frame_abs diff = Ret error_abs /\
    frame_op cell_div error_abs ref = Ret quot /\
    error_rel = frame_map cell_fillna0 (frame_map cell_replace_inf quot).
Proof.
  unfold error_analysis.
  destruct (error_analysis_body df reference_col measurement_cols)
    as [[a r]|e] eqn:Hbody; [|discriminate].
  intros Heq. injection Heq as <- <-.
  unfold error_analysis_body in Hbody.
  destruct (negb (has_column df reference_col)); [discriminate|].
  destruct (existsb _ measurement_cols); [discriminate|].
  apply bind_Ret_inv in Hbody as [sel [Hsel Hbody]].
  apply bind_Ret_inv in Hbody as [ref [Href Hbody]].
  apply bind_Ret_inv in Hbody as [diff [Hdiff Hbody]].
  apply bind_Ret_inv in Hbody as [ea [Hea Hbody]].
  apply bind_Ret_inv in Hbody as [quot [Hquot Hbody]].
  injection Hbody as <- <-.
  unfold getitem_series in Href.
  destruct (getitem df reference_col) as [c|]; [|discriminate].
  injection Href as ->.
  exists sel, ref, diff, quot. repeat split; assumption.
Qed.

Lemma select_columns (df : dataset) (cols : list string) (sel : dataset) :
  select df cols = Ret sel -> columns sel = cols.
Proof.
  unfold select. intros Hsel. apply mapM_Ret_inv in Hsel.
  unfold columns. induction Hsel as [|col p cols sel Hp _ IH]; [reflexivity|].
  simpl. rewrite IH. f_equal.
  apply bind_Ret_inv in Hp as [c [_ Hp]]. injection Hp as <-. reflexivity.
Qed.

Lemma labelled_mapM_columns (g : column -> outcome column) (df r : dataset) :
  mapM (fun p => let* c := g (snd p) in Ret (fst p, c)) df = Ret r ->
  columns r = columns df /\
  Forall2 (fun p q => g (snd p) = Ret (snd q)) df r.
Proof.
  intros Hr. apply mapM_Ret_inv in Hr. unfold columns.
  induction Hr as [|p q df r Hp _ [IH1 IH2]]; [split; [reflexivity|constructor]|].
  apply bind_Ret_inv in Hp as [c [Hc Hp]]. injection Hp as <-.
  simpl. rewrite IH1. split; [reflexivity|]. constructor; assumption.
Qed.

Lemma columns_frame_map (f : cell -> cell) (df : dataset) :
  columns (frame_map f df) = columns df.
Proof. unfold columns, frame_map. rewrite map_map. reflexivity. Qed.

(** X1.  On a frame with distinct labels, whenever [error_analysis]
    succeeds, both frames carry exactly the requested labels, in the
    requested order. *)
Theorem error_analysis_labels (df : dataset) (reference_col : string)
    (measurement_cols : list string) (error_abs error_rel : dataset) :
  NoDup (columns df) ->
  error_analysis df reference_col measurement_cols
  = (Val error_abs, Some error_rel) ->
  columns error_abs = measurement_cols /\ columns error_rel = measurement_cols.
Proof.
  intros _ Hok.
  apply error_analysis_success_inv in Hok
    as (sel & ref & diff & quot & Hsel & _ & Hdiff & Habs & Hquot & ->).
  apply select_columns in Hsel.
  apply (labelled_mapM_columns (fun c => column_op cell_sub c ref)) in Hdiff
    as [Hdiff _].
  apply (labelled_mapM_columns (mapM cell_abs)) in Habs as [Habs _].
  apply (labelled_mapM_columns (fun c => column_op cell_div c ref)) in Hquot
    as [Hquot _].
  split; [congruence|].
  rewrite !columns_frame_map. congruence.
Qed.

Lemma error_analysis_labels_witness :
  columns [("s1", [Num (of_Z 1); Num (of_Z 1); Num zero])] = ["s1"] /\
  columns [("s1", [Num (S754_finite false 4503599627370496 (-53));
                   Num zero; Num zero])] = ["s1"].
Proof.
  apply (error_analysis_labels readings "ref" ["s1"] _ _ readings_distinct).
  reflexivity.
Defined.

Lemma mapM_cell_abs_cells (c c' : column) :
  mapM cell_abs c = Ret c' ->
  Forall (fun x => exists v, x = Num v /\ SFabs v = v) c'.
Proof.
  intros Hc. apply mapM_Ret_inv in Hc.
  induction Hc as [|x y c c' Hx _ IH]; constructor; [|exact IH].
  destruct x as [v|t]; simpl in Hx; [|discriminate].
  injection Hx as <-. exists (SFabs v). split; [reflexivity|].
  destruct v; reflexivity.
Qed.

(** X2.  On a frame with distinct labels, whenever [error_analysis]
    succeeds, every entry of the absolute errors is a number that is its
    own absolute value: never negative. *)
Theorem error_analysis_abs_not_negative (df : dataset) (reference_col : string)
    (measurement_cols : list string) (error_abs error_rel : dataset) :
  NoDup (columns df) ->
  error_analysis df reference_col measurement_cols
  = (Val error_abs, Some error_rel) ->
  forall l c x, In (l, c) error_abs -> In x c ->
                exists v, x = Num v /\ SFabs v = v.
Proof.
  intros _ Hok l c x Hlc Hx.
  apply error_analysis_success_inv in Hok
    as (sel & ref & diff & quot & _ & _ & _ & Habs & _ & _).
  apply (labelled_mapM_columns (mapM cell_abs)) in Habs as [_ Habs].
  destruct (Forall2_In_r _ _ _ _ Habs Hlc) as [p [_ Hp]]. simpl in Hp.
  apply mapM_cell_abs_cells in Hp.
  rewrite List.Forall_forall in Hp. apply Hp. exact Hx.
Qed.

Lemma error_analysis_abs_not_negative_witness :
  exists v, Num (of_Z 1) = Num v /\ SFabs v = v.
Proof.
  apply (error_analysis_abs_not_negative readings "ref" ["s1"]
           [("s1", [Num (of_Z 1); Num (of_Z 1); Num zero])]
           [("s1", [Num (S754_finite false 4503599627370496 (-53));
                    Num zero; Num zero])]
           readings_distinct eq_refl "s1" [Num (of_Z 1); Num (of_Z 1); Num zero]).
  - left. reflexivity.
  - left. reflexivity.
Defined.

Lemma column_op_div_cells (c ref c' : column) :
  column_op cell_div c ref = Ret c' -> Forall (fun x => exists v, x = Num v) c'.
Proof.
  unfold column_op. intros Hc. apply mapM_Ret_inv in Hc.
  induction Hc as [|p y l c'' Hp _ IH]; constructor; [|exact IH].
  destruct p as [[a|a] [b|b]]; simpl in Hp; try discriminate.
  injection Hp as <-. eauto.
Qed.

(** X3.  On a frame with distinct labels, whenever [error_analysis]
    succeeds, every entry of the relative errors is a number that is
    neither NaN nor infinite. *)
Theorem error_analysis_rel_finite (df : dataset) (reference_col : string)
    (measurement_cols : list string) (error_abs error_rel : dataset) :
  NoDup (columns df) ->
  error_analysis df reference_col measurement_cols
  = (Val error_abs, Some error_rel) ->
  forall l c x, In (l, c) error_rel -> In x c ->
                exists v, x = Num v /\ is_nan v = false /\ is_inf v = false.
Proof.
  intros _ Hok l c x Hlc Hx.
  apply error_analysis_success_inv in Hok
    as (sel & ref & diff & quot & _ & _ & _ & _ & Hquot & ->).
  apply (labelled_mapM_columns (fun c => column_op cell_div c ref)) in Hquot
    as [_ Hquot].
  unfold frame_map in Hlc. rewrite map_map in Hlc. simpl in Hlc.
  apply in_map_iff in Hlc as [q [Hq Hqin]]. injection Hq as <- <-.
  destruct (Forall2_In_r _ _ _ _ Hquot Hqin) as [p [_ Hp]]. simpl in Hp.
  apply column_op_div_cells in Hp. rewrite List.Forall_forall in Hp.
  rewrite map_map in Hx. apply in_map_iff in Hx as [y [<- Hy]].
  destruct (Hp y Hy) as [v ->]. rewrite fillna0_replace_inf.
  eexists. split; [reflexivity|].
  destruct v; simpl; auto.
Qed.

Lemma error_analysis_rel_finite_witness :
  exists v, Num zero = Num v /\ is_nan v = false /\ is_inf v = false.
Proof.
  apply (error_analysis_rel_finite readings "ref" ["s1"]
           [("s1", [Num (of_Z 1); Num (of_Z 1); Num zero])]
           [("s1", [Num (S754_finite false 4503599627370496 (-53));
                    Num zero; Num zero])]
           readings_distinct eq_refl "s1" [Num (S754_finite false 4503599627370496 (-53));
                         Num zero; Num zero]).
  - left. reflexivity.
  - right. left. reflexivity.
Defined.



(** ** error_analysis: which message, and two special references *)

(** X4.  The reference column is looked for first: when it is absent the
    message names it, whatever the measurement list is; when it is
    present and a measurement column is absent, the message is the one
    about measurement columns. *)
Theorem error_analysis_messages (df : dataset) (reference_col : string)
    (measurement_cols : list string) :
  (has_column df reference_col = false ->
   error_analysis df reference_col measurement_cols
   = (Msg (String.append "Reference column '"
             (String.append reference_col "' not found in DataFrame.")),
      None))
  /\
  (has_column df reference_col = true ->
   (exists m, In m measurement_cols /\ has_column df m = false) ->
   error_analysis df reference_col measurement_cols
   = (Msg "One or more measurement columns not found in DataFrame.", None)).
Proof.
  unfold error_analysis, error_analysis_body. split.
  - intros ->. reflexivity.
  - intros -> [m [Hin Hm]]. simpl.
    assert (existsb (fun col => negb (has_column df col)) measurement_cols = true)
      as ->; [|reflexivity].
    apply existsb_exists. exists m. rewrite Hm. split; [exact Hin|reflexivity].
Qed.

Lemma error_analysis_messages_witness :
  error_analysis readings "truth" ["s1"; "s9"]
  = (Msg "Reference column 'truth' not found in DataFrame.", None)
  /\
  error_analysis readings "ref" ["s1"; "s9"]
  = (Msg "One or more measurement columns not found in DataFrame.", None).
Proof.
  split.
  - apply (proj1 (error_analysis_messages readings "truth" ["s1"; "s9"])).
    reflexivity.
  - apply (proj2 (error_analysis_messages readings "ref" ["s1"; "s9"])).
    + reflexivity.
    + exists "s9". split; [simpl; tauto|reflexivity].
Defined.

Lemma in_zip_with {A B C} (f : A -> B -> C) (xs : list A) (rs : list B) (z : C) :
  In z (zip_with f xs rs) -> exists x r, In x xs /\ In r rs /\ z = f x r.
Proof.
  revert rs. induction xs as [|x xs IH]; intros [|r rs]; simpl; try tauto.
  intros [<-|Hz].
  - exists x, r. auto.
  - destruct (IH rs Hz) as (x' & r' & Hx & Hr & ->). exists x', r'. auto.
Qed.

Lemma rel_error_zero_reference (x : spec_float) (s : bool) :
  rel_error x (S754_zero s) = zero.
Proof.
  unfold rel_error.
  destruct (abs_error x (S754_zero s)); reflexivity.
Qed.

(** X5.  On numeric columns, when every reference value is zero, every
    relative error is 0: the division by zero leaves neither an infinity
    nor a NaN. *)
Theorem error_analysis_zero_reference (df : dataset) (reference_col : string)
    (rs : list spec_float) (M : list (string * list spec_float)) :
  NoDup (columns df) ->
  getitem df reference_col = Some (Num <$> rs) ->
  Forall (fun p => getitem df (fst p) = Some (Num <$> snd p)) M ->
  Forall (fun r => exists s, r = S754_zero s) rs ->
  exists error_abs error_rel,
    error_analysis df reference_col (map fst M)
    = (Val error_abs, Some error_rel) /\
    forall l c x, In (l, c) error_rel -> In x c -> x = Num zero.
Proof.
  intros _ Href HM Hzero.
  rewrite (error_analysis_numeric df reference_col rs M Href HM).
  eexists. eexists. split; [reflexivity|].
  intros l c x Hlc Hx.
  apply in_map_iff in Hlc as [p [Hp _]]. injection Hp as <- <-.
  apply in_map_iff in Hx as [q [<- Hq]].
  apply in_zip_with in Hq as (m & r & _ & Hr & ->).
  rewrite List.Forall_forall in Hzero. destruct (Hzero r Hr) as [s ->].
  rewrite rel_error_zero_reference. reflexivity.
Qed.

Lemma error_analysis_zero_reference_witness :
  exists error_abs error_rel,
    error_analysis [("ref", [Num zero; Num (S754_zero true)]);
                    ("s1", [Num (of_Z 3); Num zero])] "ref" ["s1"]
    = (Val error_abs, Some error_rel) /\
    forall l c x, In (l, c) error_rel -> In x c -> x = Num zero.
Proof.
  apply (error_analysis_zero_reference
           [("ref", [Num zero; Num (S754_zero true)]);
            ("s1", [Num (of_Z 3); Num zero])]
           "ref" [zero; S754_zero true] [("s1", [of_Z 3; zero])]).
  - apply (bool_decide_unpack _). vm_compute. exact I.
  - reflexivity.
  - repeat constructor.
  - repeat constructor; eexists; reflexivity.
Defined.

Lemma zip_with_diag {A B} (f : A -> A -> B) (xs : list A) :
  zip_with f xs xs = map (fun x => f x x) xs.
Proof. induction xs as [|x xs IH]; simpl; [reflexivity|]. f_equal. exact IH. Qed.

Lemma abs_error_self (r : spec_float) :
  is_nan r = false -> is_inf r = false -> abs_error r r = zero.
Proof.
  destruct r as [s|s| |s m e]; simpl; try discriminate; intros _ _.
  - destruct s; reflexivity.
  - unfold abs_error, SFsub. rewrite Z.sub_diag. reflexivity.
Qed.

Lemma rel_error_self (r : spec_float) :
  is_nan r = false -> is_inf r = false -> exists s, rel_error r r = S754_zero s.
Proof.
  intros Hn Hi. unfold rel_error. rewrite (abs_error_self r Hn Hi).
  destruct r as [s|s| |s m e]; simpl in *; try discriminate; eauto.
Qed.

(** X6.  A column of finite numbers measured against itself: every
    absolute error is 0 and every relative error is a zero. *)
Theorem error_analysis_against_itself (df : dataset) (reference_col : string)
    (rs : list spec_float) :
  NoDup (columns df) ->
  getitem df reference_col = Some (Num <$> rs) ->
  Forall (fun r => is_nan r = false /\ is_inf r = false) rs ->
  exists error_rel,
    error_analysis df reference_col [reference_col]
    = (Val [(reference_col, Num <$> map (fun _ => zero) rs)], Some error_rel) /\
    forall l c x, In (l, c) error_rel -> In x c ->
                  exists s, x = Num (S754_zero s).
Proof.
  intros _ Href Hfin.
  pose proof (error_analysis_numeric df reference_col rs
                [(reference_col, rs)] Href) as Hnum.
  simpl in Hnum. rewrite Hnum by (constructor; [exact Href|constructor]).
  rewrite !zip_with_diag.
  assert (map (fun x => abs_error x x) rs = map (fun _ => zero) rs) as ->.
  { apply map_ext_in. intros r Hr. rewrite List.Forall_forall in Hfin.
    destruct (Hfin r Hr). apply abs_error_self; assumption. }
  eexists. split; [reflexivity|].
  intros l c x [Hlc|[]] Hx. injection Hlc as <- <-.
  apply in_map_iff in Hx as [q [<- Hq]].
  apply in_map_iff in Hq as [r [<- Hr]].
  rewrite List.Forall_forall in Hfin. destruct (Hfin r Hr) as [Hn Hi].
  destruct (rel_error_self r Hn Hi) as [s ->]. eauto.
Qed.

Lemma error_analysis_against_itself_witness :
  exists error_rel,
    error_analysis readings "s2" ["s2"]
    = (Val [("s2", Num <$> map (fun _ => zero) [of_Z 1; of_Z 0; of_Z 8])],
       Some error_rel) /\
    forall l c x, In (l, c) error_rel -> In x c ->
                  exists s, x = Num (S754_zero s).
Proof.
  apply (error_analysis_against_itself readings "s2" [of_Z 1; of_Z 0; of_Z 8]
           readings_distinct eq_refl).
  repeat constructor.
Defined.

Section MoreWithLib.
Context `{StatsLib}.

(** ** correlation_matrix *)

(** X7.  [correlation_matrix] hands out a frame only when [corr] returned
    it and it is not empty; an empty result is reported by the message
    of the method's own [ValueError]. *)
Theorem correlation_matrix_never_empty (df c : dataset) :
  (correlation_matrix df = Val c <-> corr df = Ret c /\ empty c = false)
  /\
  (corr df = Ret c -> empty c = true ->
   correlation_matrix df = Msg "Unable to compute correlations.").
Proof.
  unfold correlation_matrix, correlation_matrix_body. split.
  - destruct (corr df) as [c'|e]; simpl.
    + destruct (empty c') eqn:Hc'; simpl; split.
      * discriminate.
      * intros [Heq Hc]. injection Heq as ->. congruence.
      * intros Heq. injection Heq as ->. auto.
      * intros [Heq _]. injection Heq as ->. reflexivity.
    + split; [discriminate|intros [Heq _]; discriminate].
  - intros -> Hc. simpl. rewrite Hc. reflexivity.
Qed.

End MoreWithLib.

Lemma correlation_matrix_never_empty_witness :
  correlation_matrix (H := fixed_stats) readings = Val readings /\
  correlation_matrix (H := fixed_stats) [] = Msg "Unable to compute correlations.".
Proof.
  split.
  - apply (proj1 (correlation_matrix_never_empty (H := fixed_stats)
                    readings readings)).
    split; reflexivity.
  - apply (proj2 (correlation_matrix_never_empty (H := fixed_stats) [] []));
      reflexivity.
Defined.

(** ** linear_regression_model *)

Lemma select_missing (df : dataset) (cols : list string) (m : string) :
  In m cols -> has_column df m = false -> exists e, select df cols = Raise e.
Proof.
  unfold select. induction cols as [|c cols IH]; intros Hin Hm; [destruct Hin|].
  simpl. unfold getitem_series at 1.
  destruct (getitem df c) as [x|] eqn:Hc; simpl; [|eauto].
  destruct Hin as [->|Hin].
  - rewrite has_column_getitem, Hc in Hm. discriminate.
  - destruct (IH Hin Hm) as [e ->]. simpl. eauto.
Qed.

Lemma select_present (df : dataset) (cols : list string) :
  (forall m, In m cols -> has_column df m = true) ->
  exists sel,
    select df cols = Ret sel /\
    Forall2 (fun m c => getitem df m = Some c) cols (map snd sel).
Proof.
  unfold select. induction cols as [|c cols IH]; intros Hall.
  - exists []. split; [reflexivity|constructor].
  - destruct IH as [sel [Hsel HF]]; [intros m Hm; apply Hall; right; exact Hm|].
    pose proof (Hall c (or_introl eq_refl)) as Hc.
    rewrite has_column_getitem in Hc.
    destruct (getitem df c) as [x|] eqn:Hget; [|discriminate].
    exists ((c, x) :: sel). split.
    + simpl. unfold getitem_series at 1. rewrite Hget. simpl.
      rewrite Hsel. reflexivity.
    + constructor; assumption.
Qed.

Section WithRegression.
Context `{RegressionLib}.

(** X8.  [linear_regression_model] reports, as a message with [None] and
    without fitting anything: an absent reference column (by name); an
    empty list of measurement columns (["list index out of range"]); a
    listed measurement column that the frame lacks. *)
Theorem linear_regression_model_errors (df : dataset) (reference_col : string)
    (measurement_cols : list string) :
  (has_column df reference_col = false ->
   linear_regression_model df reference_col measurement_cols
   = (Msg (String.append "Reference column '"
             (String.append reference_col "' not found in DataFrame.")),
      None))
  /\
  (has_column df reference_col = true -> measurement_cols = [] ->
   linear_regression_model df reference_col measurement_cols
   = (Msg "list index out of range", None))
  /\
  (has_column df reference_col = true ->
   (exists m, In m measurement_cols /\ has_column df m = false) ->
   exists msg,
     linear_regression_model df reference_col measurement_cols
     = (Msg msg, None)).
Proof.
  unfold linear_regression_model, linear_regression_model_body.
  split; [|split].
  - intros ->. reflexivity.
  - intros -> ->. reflexivity.
  - intros -> [m [Hin Hm]]. simpl. unfold design_matrix.
    destruct measurement_cols as [|c [|c' cols]]; [destruct Hin| |].
    + simpl. destruct Hin as [->|[]].
      destruct (select_missing df [m] m (or_introl eq_refl) Hm) as [e ->].
      simpl. eauto.
    + change (1 <? length (c :: c' :: cols))%nat with true. cbv iota.
      destruct (select_missing df (c :: c' :: cols) m Hin Hm) as [e ->].
      simpl. eauto.
Qed.

(** X9.  With the reference column and every listed measurement column
    present (the list not empty), the model is fitted on the listed
    columns, in the order of the list, against the reference column, and
    the predictions are those of the fitted model on the same columns;
    an exception of [fit] or [predict] comes back as its message. *)
Theorem linear_regression_model_in_sample (df : dataset)
    (reference_col : string) (measurement_cols : list string) :
  NoDup (columns df) ->
  has_column df reference_col = true ->
  measurement_cols <> [] ->
  (forall m, In m measurement_cols -> has_column df m = true) ->
  exists X y,
    Forall2 (fun m c => getitem df m = Some c) measurement_cols X /\
    getitem df reference_col = Some y /\
    linear_regression_model df reference_col measurement_cols
    = match fit X y with
      | Raise e => (Msg (str e), None)
      | Ret fitted =>
          match predict fitted X with
          | Raise e => (Msg (str e), None)
          | Ret predictions => (Val fitted, Some predictions)
          end
      end.
Proof.
  intros _ Href Hne Hall.
  destruct (select_present df measurement_cols Hall) as [sel [Hsel HF]].
  pose proof Href as Hy. rewrite has_column_getitem in Hy.
  destruct (getitem df reference_col) as [y|] eqn:Hget; [|discriminate].
  exists (map snd sel), y. repeat split; [exact HF|].
  unfold linear_regression_model, linear_regression_model_body.
  rewrite Href. simpl.
  assert (design_matrix df measurement_cols = Ret (map snd sel)) as ->.
  { unfold design_matrix.
    destruct measurement_cols as [|c [|c' cols]]; [congruence| |].
    - simpl. rewrite Hsel. reflexivity.
    - change (1 <? length (c :: c' :: cols))%nat with true. cbv iota.
      rewrite Hsel. reflexivity. }
  simpl. unfold getitem_series. rewrite Hget. simpl.
  destruct (fit (map snd sel) y) as [fitted|e]; simpl; [|reflexivity].
  destruct (predict fitted (map snd sel)); reflexivity.
Qed.

End WithRegression.

Lemma linear_regression_model_errors_witness :
  linear_regression_model (H := counting_regression) readings "truth" ["s1"]
  = (Msg "Reference column 'truth' not found in DataFrame.", None)
  /\
  linear_regression_model (H := counting_regression) readings "ref" []
  = (Msg "list index out of range", None)
  /\
  (exists msg,
      linear_regression_model (H := counting_regression) readings "ref"
        ["s1"; "s9"] = (Msg msg, None)).
Proof.
  split; [|split].
  - apply (proj1 (linear_regression_model_errors (H := counting_regression)
                    readings "truth" ["s1"])). reflexivity.
  - apply (proj1 (proj2 (linear_regression_model_errors
                           (H := counting_regression) readings "ref" [])));
      reflexivity.
  - apply (proj2 (proj2 (linear_regression_model_errors
                           (H := counting_regression) readings "ref"
                           ["s1"; "s9"]))).
    + reflexivity.
    + exists "s9". split; [simpl; tauto|reflexivity].
Defined.

Lemma linear_regression_model_in_sample_witness :
  exists X y,
    Forall2 (fun m c => getitem readings m = Some c) ["s2"; "s1"] X /\
    getitem readings "ref" = Some y /\
    linear_regression_model (H := counting_regression) readings "ref"
      ["s2"; "s1"]
    = match fit (RegressionLib := counting_regression) X y with
      | Raise e => (Msg (str e), None)
      | Ret fitted =>
          match predict (RegressionLib := counting_regression) fitted X with
          | Raise e => (Msg (str e), None)
          | Ret predictions => (Val fitted, Some predictions)
          end
      end.
Proof.
  apply (linear_regression_model_in_sample (H := counting_regression)
           readings "ref" ["s2"; "s1"] readings_distinct eq_refl).
  - discriminate.
  - intros m [<-|[<-|[]]]; reflexivity.
Defined.

(** ** residual_analysis *)

Lemma zip_with_lookup_sub (a b : list spec_float) (i : nat) (t p : spec_float) :
  a !! i = Some t -> b !! i = Some p ->
  zip_with (SFsub prec emax) a b !! i = Some (SFsub prec emax t p).
Proof.
  intros Ha Hb. rewrite lookup_zip_with, Ha, Hb. reflexivity.
Qed.

(** X10.  On two arrays of the same length, [residual_analysis] returns an
    array of that length whose entry at each place is the true value
    minus the predicted one; on arrays of different lengths, neither of
    length one, it returns a message, not an array. *)
Theorem residual_analysis_rows (y_true y_pred : list spec_float) :
  (length y_true = length y_pred ->
   exists r,
     residual_analysis y_true y_pred = Val r /\
     length r = length y_true /\
     forall i t p, y_true !! i = Some t -> y_pred !! i = Some p ->
                   r !! i = Some (SFsub prec emax t p))
  /\
  (length y_true <> length y_pred ->
   length y_true <> 1%nat -> length y_pred <> 1%nat ->
   exists msg, residual_analysis y_true y_pred = Msg msg).
Proof.
  unfold residual_analysis, array_sub. split.
  - intros Hlen. apply Nat.eqb_eq in Hlen as Hb. rewrite Hb.
    eexists. split; [reflexivity|]. split.
    + rewrite length_zip_with. lia.
    + intros i t p. apply zip_with_lookup_sub.
  - intros Hlen Ht Hp. apply Nat.eqb_neq in Hlen. rewrite Hlen.
    destruct y_true as [|t [|t' ts]]; destruct y_pred as [|p [|p' ps]];
      simpl in *; try congruence; eauto.
Qed.

Lemma residual_analysis_rows_witness :
  (exists r,
      residual_analysis [of_Z 5; of_Z 7] [of_Z 4; of_Z 9] = Val r /\
      length r = 2%nat /\
      forall i t p, [of_Z 5; of_Z 7] !! i = Some t ->
                    [of_Z 4; of_Z 9] !! i = Some p ->
                    r !! i = Some (SFsub prec emax t p))
  /\
  (exists msg,
      residual_analysis [of_Z 5; of_Z 7; of_Z 9] [of_Z 4; of_Z 9] = Msg msg).
Proof.
  split.
  - apply (proj1 (residual_analysis_rows [of_Z 5; of_Z 7] [of_Z 4; of_Z 9])).
    reflexivity.
  - apply (proj2 (residual_analysis_rows [of_Z 5; of_Z 7; of_Z 9]
                    [of_Z 4; of_Z 9])); simpl; lia.
Defined.

End EDAMore.

(* ===================================================================== *)
(** * Further facts about DataLoader                                      *)
(* ===================================================================== *)

Module LoaderMore.
Import Frame DataLoader FrameFacts LoaderFacts Samples.

(** ** transform_json_keys *)

Lemma map_columns_first_missing (mapping : gmap string string)
    (pre post : list string) (col : string) :
  (forall c, In c pre -> is_Some (mapping !! c)) ->
  mapping !! col = None ->
  map_columns mapping (pre ++ col :: post)
  = Raise (KeyError (String.append "La columna '"
             (String.append col "' no tiene un mapeo en el modelo."))).
Proof.
  unfold map_columns. induction pre as [|c pre IH]; intros Hpre Hcol; simpl.
  - rewrite Hcol. reflexivity.
  - destruct (Hpre c (or_introl eq_refl)) as [new ->]. simpl.
    rewrite IH; [reflexivity| |exact Hcol].
    intros c' Hc'. apply Hpre. right. exact Hc'.
Qed.

(** X11.  The [KeyError] of [transform_json_keys] names the first label,
    in the order of the frame, that the mapping lacks; the store is left
    as it was. *)
Theorem transform_json_keys_first_missing (h : gmap loc dataset)
    (input_data : loc) (df : dataset) (mapping : gmap string string)
    (pre post : list string) (col : string) :
  h !! input_data = Some df ->
  columns df = pre ++ col :: post ->
  (forall c, In c pre -> is_Some (mapping !! c)) ->
  mapping !! col = None ->
  transform_json_keys h input_data mapping
  = (h, Raise (KeyError (String.append "La columna '"
                 (String.append col "' no tiene un mapeo en el modelo.")))).
Proof.
  intros Hh Hcols Hpre Hcol. unfold transform_json_keys.
  rewrite Hh, Hcols, (map_columns_first_missing mapping pre post col Hpre Hcol).
  reflexivity.
Qed.

Lemma transform_json_keys_first_missing_witness :
  transform_json_keys one_frame 7%nat
    (delete "s2" (delete "s1" to_model_names))
  = (one_frame,
     Raise (KeyError "La columna 's1' no tiene un mapeo en el modelo.")).
Proof.
  apply (transform_json_keys_first_missing one_frame 7%nat readings
           (delete "s2" (delete "s1" to_model_names))
           ["ref"] ["s2"; "unit"] "s1" eq_refl eq_refl).
  - intros c [<-|[]]. eexists. reflexivity.
  - reflexivity.
Defined.

(** X12.  [transform_json_keys] does not look for collisions: when the
    mapping sends the labels at two places to one name, the call
    succeeds and the frame is left with a repeated label. *)
Theorem transform_json_keys_collision (h : gmap loc dataset)
    (input_data : loc) (df : dataset) (mapping : gmap string string)
    (i j : nat) (a b new : string) :
  h !! input_data = Some df ->
  (forall col, In col (columns df) -> is_Some (mapping !! col)) ->
  i <> j ->
  columns df !! i = Some a -> columns df !! j = Some b ->
  mapping !! a = Some new -> mapping !! b = Some new ->
  exists h' df',
    transform_json_keys h input_data mapping = (h', Ret input_data) /\
    h' !! input_data = Some df' /\
    ~ NoDup (columns df').
Proof.
  intros Hh Hall Hij Hi Hj Ha Hb.
  destruct (transform_json_keys_success h input_data df mapping Hh Hall)
    as [df' [Heq [HF _]]].
  exists (<[input_data := df']> h), df'. split; [exact Heq|].
  split; [apply lookup_insert_eq|].
  intros Hnd.
  destruct (Forall2_lookup_l _ _ _ _ _ HF Hi) as [ni [Hni Hmi]].
  destruct (Forall2_lookup_l _ _ _ _ _ HF Hj) as [nj [Hnj Hmj]].
  assert (ni = new) as -> by congruence.
  assert (nj = new) as -> by congruence.
  apply Hij. eapply NoDup_lookup; eassumption.
Qed.

Lemma transform_json_keys_collision_witness :
  exists h' df',
    transform_json_keys one_frame 7%nat (<["s2" := "x1"]> to_model_names)
    = (h', Ret 7%nat) /\
    h' !! 7%nat = Some df' /\
    ~ NoDup (columns df').
Proof.
  apply (transform_json_keys_collision one_frame 7%nat readings
           (<["s2" := "x1"]> to_model_names) 1 2 "s1" "s2" "x1" eq_refl);
    try reflexivity; [|lia].
  intros col Hcol. simpl in Hcol.
  destruct Hcol as [<-|[<-|[<-|[<-|[]]]]]; eexists; reflexivity.
Defined.

Lemma Forall2_In_r_names (mapping : gmap string string)
    (olds news : list string) :
  Forall2 (fun old new => mapping !! old = Some new) olds news ->
  forall new, In new news -> exists old, In old olds /\ mapping !! old = Some new.
Proof.
  induction 1 as [|o n olds news Hon _ IH]; simpl; [intros ? []|].
  intros new [<-|Hnew]; [exists o; auto|].
  destruct (IH new Hnew) as [old [Hold Hmap]]. exists old. auto.
Qed.

Lemma frame_ext (a b : dataset) :
  columns a = columns b -> map snd a = map snd b -> a = b.
Proof.
  unfold columns. revert b.
  induction a as [|[l c] a IH]; intros [|[l' c'] b]; simpl;
    try discriminate; [reflexivity|].
  intros Hl Hc. injection Hl as -> Hl. injection Hc as -> Hc.
  f_equal. apply IH; assumption.
Qed.

Lemma Forall2_there_and_back (mapping inverse : gmap string string)
    (olds news back : list string) :
  Forall2 (fun old new => mapping !! old = Some new) olds news ->
  Forall2 (fun new old => inverse !! new = Some old) news back ->
  (forall col new, In col olds -> mapping !! col = Some new ->
                   inverse !! new = Some col) ->
  back = olds.
Proof.
  intros H1. revert back.
  induction H1 as [|o n olds news Hon _ IH]; intros back H2 Hinv.
  - inversion H2. reflexivity.
  - inversion H2 as [|n' o' news' back' Hno Hrest]; subst.
    f_equal.
    + pose proof (Hinv o n (or_introl eq_refl) Hon). congruence.
    + apply IH; [exact Hrest|].
      intros col new Hcol. apply Hinv. right. exact Hcol.
Qed.

(** X13.  Renaming and renaming back: when [inverse] sends every new
    name to the label it came from, the two calls in a row leave the
    store exactly as it was. *)
Theorem transform_json_keys_there_and_back (h : gmap loc dataset)
    (input_data : loc) (df : dataset) (mapping inverse : gmap string string) :
  h !! input_data = Some df ->
  (forall col, In col (columns df) ->
               exists new, mapping !! col = Some new /\
                           inverse !! new = Some col) ->
  exists h1,
    transform_json_keys h input_data mapping = (h1, Ret input_data) /\
    transform_json_keys h1 input_data inverse = (h, Ret input_data).
Proof.
  intros Hh Hinv.
  destruct (transform_json_keys_success h input_data df mapping Hh)
    as [df1 [Heq1 [HF1 Hdata1]]].
  { intros col Hcol. destruct (Hinv col Hcol) as [new [Hnew _]]. eauto. }
  exists (<[input_data := df1]> h). split; [exact Heq1|].
  destruct (transform_json_keys_success (<[input_data := df1]> h) input_data
              df1 inverse (lookup_insert_eq _ _ _))
    as [df2 [Heq2 [HF2 Hdata2]]].
  { intros new Hnew.
    destruct (Forall2_In_r_names _ _ _ HF1 new Hnew) as [col [Hcol Hmap]].
    destruct (Hinv col Hcol) as [new' [Hnew' Hback]].
    assert (new' = new) as -> by congruence. eauto. }
  rewrite Heq2. f_equal.
  assert (df2 = df) as ->.
  { apply frame_ext; [|congruence].
    apply (Forall2_there_and_back mapping inverse (columns df) (columns df1));
      [exact HF1|exact HF2|].
    intros col new Hcol Hnew. destruct (Hinv col Hcol) as [new' [Hnew' Hback]].
    congruence. }
  rewrite insert_insert_eq. apply insert_id. exact Hh.
Qed.

Lemma transform_json_keys_there_and_back_witness :
  exists h1,
    transform_json_keys one_frame 7%nat to_model_names = (h1, Ret 7%nat) /\
    transform_json_keys h1 7%nat from_model_names = (one_frame, Ret 7%nat).
Proof.
  apply (transform_json_keys_there_and_back one_frame 7%nat readings
           to_model_names from_model_names eq_refl).
  intros col Hcol. simpl in Hcol.
  destruct Hcol as [<-|[<-|[<-|[<-|[]]]]]; eexists; split; reflexivity.
Defined.

(** ** apply_mapping *)

Lemma getitem_of_member (df : dataset) (p : string * column) :
  NoDup (columns df) -> In p df -> getitem df (fst p) = Some (snd p).
Proof.
  induction df as [|[l c] df IH]; intros Hnd Hin; [destruct Hin|].
  unfold columns in Hnd. simpl in Hnd. apply NoDup_cons in Hnd as [Hl Hnd].
  simpl. destruct Hin as [<-|Hin].
  - simpl. rewrite String.eqb_refl. reflexivity.
  - destruct (String.eqb_spec (fst p) l) as [<-|Hne]; [|apply IH; assumption].
    exfalso. apply Hl. apply list_elem_of_In. apply in_map. exact Hin.
Qed.

Lemma apply_mapping_step_closed (df : dataset) (k : string)
    (m : gmap string cell) :
  NoDup (columns df) ->
  apply_mapping_step df (k, m)
  = Ret (map (fun p => if String.eqb k (fst p)
                       then (fst p, map (map_cell m) (snd p)) else p) df).
Proof.
  intros Hnd. unfold apply_mapping_step. simpl.
  destruct (has_column df k) eqn:Hk.
  - pose proof Hk as Hget. rewrite has_column_getitem in Hget.
    unfold getitem_series.
    destruct (getitem df k) as [c|] eqn:Hc; [|discriminate]. simpl.
    unfold setitem. rewrite Hk. f_equal. apply map_ext_in.
    intros p Hp. cbv beta. unfold column in *.
    destruct (String.eqb_spec k (fst p)) as [->|Hne]; [|reflexivity].
    pose proof (getitem_of_member df p Hnd Hp) as Hm. unfold column in *.
    rewrite Hm in Hc. injection Hc as ->. reflexivity.
  - f_equal. symmetry.
    transitivity (map (fun x : string * column => x) df); [|apply map_id].
    apply map_ext_in.
    intros p Hp. cbv beta. unfold column in *.
    destruct (String.eqb_spec k (fst p)) as [->|Hne]; [|reflexivity].
    exfalso. apply not_true_iff_false in Hk. apply Hk.
    apply has_column_In. apply in_map. exact Hp.
Qed.

Lemma entry_for_absent (label : string) (items : list (string * gmap string cell)) :
  ~ In label (map fst items) -> entry_for label items = None.
Proof.
  induction items as [|[k m] items IH]; simpl; [reflexivity|].
  intros Hnot. destruct (String.eqb_spec k label) as [->|Hne]; [tauto|].
  apply IH. tauto.
Qed.

Lemma apply_mapping_loop_closed (items : list (string * gmap string cell))
    (df : dataset) :
  NoDup (columns df) -> NoDup (map fst items) ->
  apply_mapping_loop df items = Ret (map (mapped_column items) df).
Proof.
  revert df. induction items as [|[k m] items IH]; intros df Hnd Hkeys.
  - simpl. f_equal. symmetry.
    transitivity (map (fun x : string * column => x) df); [|apply map_id].
    apply map_ext. intros p. reflexivity.
  - simpl in Hkeys. apply NoDup_cons in Hkeys as [Hk Hkeys].
    cbn [apply_mapping_loop]. rewrite (apply_mapping_step_closed df k m Hnd).
    simpl. rewrite IH; [|
      unfold columns in *; rewrite map_map;
      erewrite map_ext; [exact Hnd|];
      intros p; simpl; destruct (String.eqb k (fst p)); reflexivity
      | exact Hkeys].
    f_equal. rewrite map_map. apply map_ext. intros p.
    unfold mapped_column. simpl. unfold column in *.
    destruct (String.eqb k (fst p)) eqn:Hkp; simpl.
    + apply String.eqb_eq in Hkp. subst k.
      rewrite entry_for_absent; [reflexivity|].
      intros Hin. apply Hk. apply list_elem_of_In. exact Hin.
    + reflexivity.
Qed.

Lemma getitem_mapped (items : list (string * gmap string cell))
    (df : dataset) (label : string) (c : column) :
  getitem df label = Some c ->
  getitem (map (mapped_column items) df) label
  = Some (match entry_for label items with
          | Some m => map (map_cell m) c
          | None => c
          end).
Proof.
  induction df as [|[l x] df IH]; simpl; [discriminate|].
  unfold mapped_column at 1. simpl.
  destruct (entry_for l items) as [m|] eqn:He; simpl;
    destruct (String.eqb label l) eqn:Hl; try exact IH;
    intros Hc; injection Hc as <-;
    apply String.eqb_eq in Hl; subst label; rewrite He; reflexivity.
Qed.

(** X14.  [apply_mapping] works in place and returns the reference it was
    given.  Afterwards a column whose label has an entry in the
    dictionary holds, for each cell, the value the entry gives to its
    text, or NaN when the entry has none (or the cell is a number); every
    other column is as it was, and an entry for a label that no column
    carries changes nothing. *)
Theorem apply_mapping_columns (h : gmap loc dataset) (input_data : loc)
    (df : dataset) (diccionary : list (string * gmap string cell)) :
  h !! input_data = Some df ->
  NoDup (columns df) -> NoDup (map fst diccionary) ->
  exists df',
    apply_mapping h input_data diccionary
    = (<[input_data := df']> h, Ret input_data) /\
    forall label c,
      getitem df label = Some c ->
      getitem df' label
      = Some (match entry_for label diccionary with
              | Some m => map (map_cell m) c
              | None => c
              end).
Proof.
  intros Hh Hnd Hkeys. exists (map (mapped_column diccionary) df). split.
  - unfold apply_mapping.
    rewrite Hh, (apply_mapping_loop_closed diccionary df Hnd Hkeys).
    reflexivity.
  - intros label c. apply getitem_mapped.
Qed.

(** X15.  [apply_mapping] never adds, drops or reorders a column, and
    never changes the number of rows of one. *)
Theorem apply_mapping_shape (h : gmap loc dataset) (input_data : loc)
    (df : dataset) (diccionary : list (string * gmap string cell)) :
  h !! input_data = Some df ->
  NoDup (columns df) -> NoDup (map fst diccionary) ->
  exists h' df',
    apply_mapping h input_data diccionary = (h', Ret input_data) /\
    h' !! input_data = Some df' /\
    columns df' = columns df /\
    map (fun p => length (snd p)) df' = map (fun p => length (snd p)) df.
Proof.
  intros Hh Hnd Hkeys. unfold apply_mapping.
  rewrite Hh, (apply_mapping_loop_closed diccionary df Hnd Hkeys).
  eexists. eexists. split; [reflexivity|]. split; [apply lookup_insert_eq|].
  unfold columns. rewrite !map_map. split; apply map_ext; intros p;
    unfold mapped_column; unfold column in *;
    destruct (entry_for (fst p) diccionary); simpl; try reflexivity.
  apply length_map.
Qed.

Lemma unit_codes_distinct : NoDup (map fst unit_codes).
Proof. apply (bool_decide_unpack _). vm_compute. exact I. Qed.

Lemma readings_labels_distinct : NoDup (columns readings).
Proof. apply (bool_decide_unpack _). vm_compute. exact I. Qed.

Lemma apply_mapping_columns_witness :
  exists df',
    apply_mapping one_frame 7%nat unit_codes
    = (<[7%nat := df']> one_frame, Ret 7%nat) /\
    forall label c,
      getitem readings label = Some c ->
      getitem df' label
      = Some (match entry_for label unit_codes with
              | Some m => map (map_cell m) c
              | None => c
              end).
Proof.
  apply (apply_mapping_columns one_frame 7%nat readings unit_codes
           eq_refl readings_labels_distinct unit_codes_distinct).
Defined.

Lemma apply_mapping_shape_witness :
  exists h' df',
    apply_mapping one_frame 7%nat unit_codes = (h', Ret 7%nat) /\
    h' !! 7%nat = Some df' /\
    columns df' = columns readings /\
    map (fun p => length (snd p)) df' = map (fun p => length (snd p)) readings.
Proof.
  apply (apply_mapping_shape one_frame 7%nat readings unit_codes
           eq_refl readings_labels_distinct unit_codes_distinct).
Defined.

(** The units of [readings] become the number 1; the other columns and
    the entry for the absent ["site"] change nothing. *)
Example apply_mapping_readings :
  apply_mapping one_frame 7%nat unit_codes
  = ({[ 7%nat := [("ref", [Num (of_Z 2); Num (of_Z 0); Num (of_Z 4)]);
                  ("s1", [Num (of_Z 3); Num (of_Z 1); Num (of_Z 4)]);
                  ("s2", [Num (of_Z 1); Num (of_Z 0); Num (of_Z 8)]);
                  ("unit", [Num (of_Z 1); Num (of_Z 1); Num (of_Z 1)])] ]},
     Ret 7%nat).
Proof. vm_compute. reflexivity. Qed.

(** ** load_data_csv *)

Section MoreWithCsv.
Context `{CsvLib}.

Lemma load_data_csv_closed (filename_path encoding delimiter : string)
    (data : dataset) :
  read_csv filename_path encoding delimiter = Ret data ->
  NoDup (columns data) ->
  load_data_csv filename_path encoding delimiter
  = Ret (Some (map (fun p => (fst p, if isna_any (to_numeric (snd p))
                                     then snd p
                                     else to_numeric (snd p))) data)).
Proof.
  intros Hread Hnd. unfold load_data_csv. rewrite Hread. unfold bind.
  pose proof (coerce_columns_from [] data Hnd) as Hloop.
  rewrite !app_nil_l in Hloop. rewrite Hloop. reflexivity.
Qed.

(** X16.  The frame [load_data_csv] returns has the labels of the frame
    read, in the same order, and each column has as many rows as it was
    read with. *)
Theorem load_data_csv_shape (filename_path encoding delimiter : string)
    (data : dataset) :
  read_csv filename_path encoding delimiter = Ret data ->
  NoDup (columns data) ->
  exists data',
    load_data_csv filename_path encoding delimiter = Ret (Some data') /\
    columns data' = columns data /\
    map (fun p => length (snd p)) data' = map (fun p => length (snd p)) data.
Proof.
  intros Hread Hnd.
  rewrite (load_data_csv_closed _ _ _ data Hread Hnd).
  eexists. split; [reflexivity|].
  unfold columns. rewrite !map_map. split; apply map_ext; intros p; simpl;
    [reflexivity|].
  unfold column in *.
  destruct (isna_any (to_numeric (snd p))); [reflexivity|].
  unfold to_numeric. apply length_map.
Qed.

Lemma to_numeric_of_numbers (c : column) :
  Forall (fun x => exists v, x = Num v) c -> to_numeric c = c.
Proof.
  unfold to_numeric. induction 1 as [|x c [v ->] _ IH]; simpl; [reflexivity|].
  rewrite IH. reflexivity.
Qed.

Lemma to_numeric_settled (c : column) :
  isna_any (to_numeric c) = false ->
  Forall (fun x => exists v, x = Num v /\ is_nan v = false) (to_numeric c).
Proof.
  unfold isna_any, to_numeric. induction c as [|x c IH]; simpl; [constructor|].
  intros Hna. apply orb_false_iff in Hna as [Hx Hc].
  constructor; [|apply IH; exact Hc].
  destruct x as [v|t]; simpl in *; [eauto|].
  destruct (parse_float t); simpl in *; [eauto|discriminate].
Qed.

(** X17.  No column comes back half converted.  Place by place, the
    column returned is the column as read, or it holds only numbers none
    of which is NaN; and a column that was read without any text comes
    back as read, missing entries included. *)
Theorem load_data_csv_columns_settled
    (filename_path encoding delimiter : string) (data : dataset) :
  read_csv filename_path encoding delimiter = Ret data ->
  NoDup (columns data) ->
  exists data',
    load_data_csv filename_path encoding delimiter = Ret (Some data') /\
    Forall2 (fun p q =>
               fst q = fst p /\
               (snd q = snd p \/
                Forall (fun x => exists v, x = Num v /\ is_nan v = false)
                  (snd q)) /\
               (Forall (fun x => exists v, x = Num v) (snd p) ->
                snd q = snd p))
      data data'.
Proof.
  intros Hread Hnd.
  rewrite (load_data_csv_closed _ _ _ data Hread Hnd).
  eexists. split; [reflexivity|].
  clear Hread Hnd. induction data as [|p data IH]; simpl; constructor;
    [|exact IH].
  simpl. unfold column in *. split; [reflexivity|]. split.
  - destruct (isna_any (to_numeric (snd p))) eqn:Hna; [left; reflexivity|].
    right. apply to_numeric_settled. exact Hna.
  - intros Hnum. pose proof (to_numeric_of_numbers _ Hnum) as Hsame.
    unfold column in *. rewrite Hsame.
    destruct (isna_any (snd p)); reflexivity.
Qed.

End MoreWithCsv.

Lemma table_csv_distinct :
  NoDup (columns [("id", [Str "1"; Str "2"; Str "3"]);
                  ("site", [Str "north"; Str "7"; Str "south"])]).
Proof. apply (bool_decide_unpack _). vm_compute. exact I. Qed.

Lemma load_data_csv_shape_witness :
  exists data',
    load_data_csv (H := two_files) "table.csv" "latin1" ";" = Ret (Some data') /\
    columns data' = ["id"; "site"] /\
    map (fun p => length (snd p)) data' = [3%nat; 3%nat].
Proof.
  apply (load_data_csv_shape (H := two_files) "table.csv" "latin1" ";"
           [("id", [Str "1"; Str "2"; Str "3"]);
            ("site", [Str "north"; Str "7"; Str "south"])]
           eq_refl table_csv_distinct).
Defined.

Lemma load_data_csv_columns_settled_witness :
  exists data',
    load_data_csv (H := two_files) "table.csv" "latin1" ";" = Ret (Some data') /\
    Forall2 (fun p q =>
               fst q = fst p /\
               (snd q = snd p \/
                Forall (fun x => exists v, x = Num v /\ is_nan v = false)
                  (snd q)) /\
               (Forall (fun x => exists v, x = Num v) (snd p) ->
                snd q = snd p))
      [("id", [Str "1"; Str "2"; Str "3"]);
       ("site", [Str "north"; Str "7"; Str "south"])] data'.
Proof.
  apply (load_data_csv_columns_settled (H := two_files) "table.csv" "latin1" ";"
           [("id", [Str "1"; Str "2"; Str "3"]);
            ("site", [Str "north"; Str "7"; Str "south"])]
           eq_refl table_csv_distinct).
Defined.

(** ** save_data_pickle, load_data_pickle *)

Section MoreWithPickle.
Context `{PickleLib}.

(** X18.  The two failures that come before anything is written.  When a
    filter that is not empty cannot be evaluated, the exception of
    [query] leaves the call before the file is opened: no file is
    created or emptied.  When the path cannot be opened for writing, the
    call raises and nothing is stored.  (A failure while the opened file
    is being written is not among them.) *)
Theorem save_data_pickle_fails_before_writing (fs : gmap string bytes)
    (data : dataset) (filename_path : string) :
  (forall cond e,
      cond <> EmptyString -> query data cond = Raise e ->
      save_data_pickle fs data filename_path (Some cond) = (fs, Raise e))
  /\
  (writable filename_path = false ->
   forall filter_condition,
   exists e,
     save_data_pickle fs data filename_path filter_condition = (fs, Raise e)).
Proof.
  unfold save_data_pickle. split.
  - intros cond e Hcond Hq. apply String.eqb_neq in Hcond.
    rewrite Hcond, Hq. reflexivity.
  - intros Hw [cond|]; [|rewrite Hw; eauto].
    destruct (String.eqb cond ""); [rewrite Hw; eauto|].
    destruct (query data cond); [rewrite Hw|]; eauto.
Qed.

(** What [pickle] promises: loading what was dumped gives it back. *)
Hypothesis loads_dumps : forall df, loads (dumps df) = Ret df.

(** X20.  The empty text is no filter: [query] is not consulted and the
    whole frame is saved.  And a second save under the same path
    replaces the first: the path loads what was saved last. *)
Theorem save_data_pickle_empty_filter_and_overwrite (fs : gmap string bytes)
    (data later : dataset) (filename_path : string) :
  writable filename_path = true ->
  load_data_pickle
    (fst (save_data_pickle fs data filename_path (Some EmptyString)))
    filename_path = Ret data
  /\
  load_data_pickle
    (fst (save_data_pickle
            (fst (save_data_pickle fs data filename_path None))
            later filename_path None))
    filename_path = Ret later.
Proof.
  intros Hw. unfold save_data_pickle, load_data_pickle. simpl.
  rewrite Hw. simpl. rewrite !lookup_insert_eq. split; apply loads_dumps.
Qed.

End MoreWithPickle.

Lemma save_data_pickle_fails_before_writing_witness :
  save_data_pickle (H := plain_pickle) ∅ readings "readings.pkl"
    (Some "ref > ") = (∅, Raise (ValueError "invalid expression"))
  /\
  (exists e,
      save_data_pickle (H := plain_pickle) ∅ readings "" None = (∅, Raise e)).
Proof.
  split.
  - apply (proj1 (save_data_pickle_fails_before_writing (H := plain_pickle)
                    ∅ readings "readings.pkl"));
      [discriminate|reflexivity].
  - apply (proj2 (save_data_pickle_fails_before_writing (H := plain_pickle)
                    ∅ readings "") eq_refl None).
Defined.

Lemma save_data_pickle_empty_filter_and_overwrite_witness :
  load_data_pickle (H := plain_pickle)
    (fst (save_data_pickle (H := plain_pickle) ∅ readings "readings.pkl"
            (Some EmptyString)))
    "readings.pkl" = Ret readings
  /\
  load_data_pickle (H := plain_pickle)
    (fst (save_data_pickle (H := plain_pickle)
            (fst (save_data_pickle (H := plain_pickle) ∅ readings
                    "readings.pkl" None))
            [] "readings.pkl" None))
    "readings.pkl" = Ret [].
Proof.
  apply (save_data_pickle_empty_filter_and_overwrite (H := plain_pickle)
           (fun df => eq_refl) ∅ readings [] "readings.pkl" eq_refl).
Defined.

(** ** Timestamps: what save_model writes, strptime reads *)

Lemma N_of_digit_char (d : N) : (d < 10)%N -> N_of_ascii (digit_char d) = (48 + d)%N.
Proof. intros Hd. unfold digit_char. apply N_ascii_embedding. lia. Qed.

Lemma digit_digit_char (d : N) : (d < 10)%N -> digit (digit_char d) = Some d.
Proof.
  intros Hd. unfold digit. rewrite (N_of_digit_char d Hd).
  assert ((48 <=? 48 + d)%N = true) as -> by (apply N.leb_le; lia).
  assert ((48 + d <=? 57)%N = true) as -> by (apply N.leb_le; lia).
  simpl. f_equal. lia.
Qed.

Lemma digit_char_is_not (d : N) (c : ascii) :
  (d < 10)%N -> (N_of_ascii c < 48 \/ 57 < N_of_ascii c)%N ->
  Ascii.eqb (digit_char d) c = false.
Proof.
  intros Hd Hc. apply Ascii.eqb_neq. intros Heq.
  apply (f_equal N_of_ascii) in Heq. rewrite (N_of_digit_char d Hd) in Heq. lia.
Qed.

Lemma lacks_app (c : ascii) (a b : string) :
  lacks c (String.append a b) = lacks c a && lacks c b.
Proof.
  induction a as [|x a IH]; simpl; [reflexivity|].
  rewrite IH. apply andb_assoc.
Qed.

Lemma lacks_pad2 (c : ascii) (n : N) :
  (n < 100)%N -> (N_of_ascii c < 48 \/ 57 < N_of_ascii c)%N ->
  lacks c (pad2 n) = true.
Proof.
  intros Hn Hc. unfold pad2. simpl.
  rewrite !digit_char_is_not; try assumption; [reflexivity| |].
  - apply N.mod_lt. discriminate.
  - apply N.Div0.div_lt_upper_bound. lia.
Qed.

Lemma lacks_pad4 (c : ascii) (n : N) :
  (n < 10000)%N -> (N_of_ascii c < 48 \/ 57 < N_of_ascii c)%N ->
  lacks c (pad4 n) = true.
Proof.
  intros Hn Hc. unfold pad4. cbn [lacks].
  rewrite (lacks_pad2 c (n mod 100)); [|apply N.mod_lt; discriminate|exact Hc].
  rewrite !digit_char_is_not; try assumption; [reflexivity| |].
  - apply N.mod_lt. discriminate.
  - apply N.Div0.div_lt_upper_bound. lia.
Qed.

Lemma split_lacks (sep : ascii) (s : string) :
  lacks sep s = true -> split sep s = [s].
Proof.
  induction s as [|c s IH]; simpl; [reflexivity|].
  intros Hl. apply andb_true_iff in Hl as [Hc Hs].
  apply negb_true_iff in Hc. rewrite Hc, (IH Hs). reflexivity.
Qed.

Lemma split_app_sep (sep : ascii) (a b : string) :
  lacks sep a = true ->
  split sep (String.append a (String sep b)) = a :: split sep b.
Proof.
  induction a as [|c a IH]; simpl.
  - intros _. rewrite Ascii.eqb_refl. reflexivity.
  - intros Hl. apply andb_true_iff in Hl as [Hc Ha].
    apply negb_true_iff in Hc. rewrite Hc, (IH Ha). reflexivity.
Qed.

Lemma split_ends_with (sep : ascii) (p rest : string) :
  lacks sep rest = true ->
  exists h t, split sep (String.append p (String sep rest)) = h :: t ++ [rest].
Proof.
  intros Hrest. induction p as [|c p [h [t IH]]]; simpl.
  - rewrite Ascii.eqb_refl, (split_lacks sep rest Hrest).
    exists EmptyString, []. reflexivity.
  - rewrite IH. destruct (Ascii.eqb c sep).
    + exists EmptyString, (h :: t). reflexivity.
    + exists (String c h), t. reflexivity.
Qed.

Lemma remove_go_step (old : string) (c : ascii) (s : string) :
  remove_go old 0 (String c s)
  = if String.eqb old EmptyString then String c (remove_go old 0 s)
    else if String.prefix old (String c s)
         then remove_go old (String.length old - 1) s
         else String c (remove_go old 0 s).
Proof. reflexivity. Qed.

Lemma prefix_first_differs (a c : ascii) (p s : string) :
  a <> c -> String.prefix (String a p) (String c s) = false.
Proof. intros Hne. simpl. destruct (ascii_dec a c); [congruence|reflexivity]. Qed.

Lemma remove_pkl_suffix (s : string) :
  lacks "." s = true -> remove_all ".pkl" (String.append s ".pkl") = s.
Proof.
  unfold remove_all. induction s as [|c s IH]; [reflexivity|].
  intros Hl. simpl in Hl. apply andb_true_iff in Hl as [Hc Hs].
  apply negb_true_iff in Hc. apply Ascii.eqb_neq in Hc.
  change (String.append (String c s) ".pkl")
    with (String c (String.append s ".pkl")).
  rewrite remove_go_step.
  change (String.eqb ".pkl" EmptyString) with false. cbv iota.
  rewrite prefix_first_differs by congruence.
  rewrite (IH Hs). reflexivity.
Qed.

Lemma substring_whole (s : string) : substring 0 (String.length s) s = s.
Proof. induction s as [|c s IH]; simpl; [reflexivity|]. rewrite IH. reflexivity. Qed.

Lemma endswith_app (a suffix : string) :
  endswith (String.append a suffix) suffix = true.
Proof.
  unfold endswith.
  assert (Hlen : String.length (String.append a suffix)
                 = (String.length a + String.length suffix)%nat).
  { induction a as [|c a IH]; simpl; [reflexivity|]. rewrite IH. reflexivity. }
  rewrite Hlen.
  assert ((String.length suffix <=? String.length a + String.length suffix)%nat
          = true) as -> by (apply Nat.leb_le; lia).
  replace (String.length a + String.length suffix - String.length suffix)%nat
    with (String.length a) by lia.
  simpl. apply String.eqb_eq. clear Hlen.
  induction a as [|c a IH]; simpl; [apply substring_whole|exact IH].
Qed.

Lemma digits12_pad2 (n : N) : (n < 100)%N -> digits12 (pad2 n) = Some (2%nat, n).
Proof.
  intros Hn. unfold pad2, digits12.
  rewrite !digit_digit_char.
  - f_equal. f_equal. symmetry. apply N.div_mod'.
  - apply N.mod_lt. discriminate.
  - apply N.Div0.div_lt_upper_bound. lia.
Qed.

Lemma parse_Y_pad4 (y : N) : (y < 10000)%N -> parse_Y (pad4 y) = Some y.
Proof.
  intros Hy. unfold pad4, pad2, parse_Y.
  rewrite !digit_digit_char.
  - f_equal. zify. Z.to_euclidean_division_equations. lia.
  - apply N.mod_lt. discriminate.
  - apply N.Div0.div_lt_upper_bound.
    assert (y mod 100 < 100)%N by (apply N.mod_lt; discriminate). lia.
  - apply N.mod_lt. discriminate.
  - apply N.Div0.div_lt_upper_bound. lia.
Qed.

Lemma parse_m_pad2 (n : N) : (1 <= n)%N -> (n <= 12)%N -> parse_m (pad2 n) = Some n.
Proof.
  intros H1 H2. unfold parse_m. rewrite digits12_pad2 by lia.
  assert ((1 <=? n)%N = true) as -> by (apply N.leb_le; lia).
  assert ((n <=? 12)%N = true) as -> by (apply N.leb_le; lia). reflexivity.
Qed.

Lemma parse_d_pad2 (n : N) : (1 <= n)%N -> (n <= 31)%N -> parse_d (pad2 n) = Some n.
Proof.
  intros H1 H2.
  assert (n / 10 = 0 \/ n / 10 = 1 \/ n / 10 = 2 \/ n / 10 = 3)%N as Hq.
  { zify. Z.to_euclidean_division_equations. lia. }
  pose proof (digits12_pad2 n ltac:(lia)) as Hd.
  unfold parse_d. unfold pad2 in *.
  destruct Hq as [Hq|[Hq|[Hq|Hq]]]; rewrite Hq in *;
    change (digit_char 0) with "0"%char in *;
    change (digit_char 1) with "1"%char in *;
    change (digit_char 2) with "2"%char in *;
    change (digit_char 3) with "3"%char in *; cbv iota beta; rewrite Hd;
    (assert ((1 <=? n)%N = true) as -> by (apply N.leb_le; lia));
    (assert ((n <=? 31)%N = true) as -> by (apply N.leb_le; lia)); reflexivity.
Qed.

Lemma parse_H_pad2 (n : N) : (n <= 23)%N -> parse_H (pad2 n) = Some n.
Proof.
  intros H2. unfold parse_H. rewrite digits12_pad2 by lia.
  assert ((n <=? 23)%N = true) as -> by (apply N.leb_le; lia). reflexivity.
Qed.

Lemma parse_M_pad2 (n : N) : (n <= 59)%N -> parse_M (pad2 n) = Some n.
Proof.
  intros H2. unfold parse_M. rewrite digits12_pad2 by lia.
  assert ((n <=? 59)%N = true) as -> by (apply N.leb_le; lia). reflexivity.
Qed.

Lemma parse_S_pad2 (n : N) : (n <= 59)%N -> parse_S (pad2 n) = Some n.
Proof.
  intros H2. unfold parse_S. rewrite digits12_pad2 by lia.
  assert ((n <=? 59)%N = true) as -> by (apply N.leb_le; lia). reflexivity.
Qed.

Lemma days_in_month_le_31 (y m : N) : (days_in_month y m <= 31)%N.
Proof.
  unfold days_in_month.
  destruct (m =? 2)%N; [destruct (is_leap y); lia|].
  destruct ((m =? 4) || (m =? 6) || (m =? 9) || (m =? 11))%N; lia.
Qed.

Lemma valid_datetime_bounds (t : datetime) :
  valid_datetime t = true ->
  (1000 <= year t /\ year t <= 9999 /\ 1 <= month t /\ month t <= 12 /\
   1 <= day t /\ day t <= days_in_month (year t) (month t) /\
   hour t <= 23 /\ minute t <= 59 /\ second t <= 59)%N.
Proof.
  unfold valid_datetime. rewrite !andb_true_iff, !N.leb_le. tauto.
Qed.

Lemma append_cons_assoc (a : string) (c : ascii) (b rest : string) :
  String.append (String.append a (String c b)) rest
  = String.append a (String c (String.append b rest)).
Proof.
  induction a as [|x a IH]; [reflexivity|].
  change (String x (String.append (String.append a (String c b)) rest)
          = String x (String.append a (String c (String.append b rest)))).
  f_equal. exact IH.
Qed.

Lemma strptime_strftime_fields (t : datetime) :
  (1000 <= year t /\ year t <= 9999 /\ 1 <= month t /\ month t <= 12 /\
   1 <= day t /\ day t <= days_in_month (year t) (month t) /\
   hour t <= 23 /\ minute t <= 59 /\ second t <= 59)%N ->
  strptime (strftime t) = Some t.
Proof.
  intros (Hy1 & Hy2 & Hm1 & Hm2 & Hd1 & Hd2 & Hh & Hmi & Hs).
  pose proof (days_in_month_le_31 (year t) (month t)) as H31.
  assert (Hsep : forall n : N, (n < 100)%N ->
            lacks "-" (pad2 n) = true /\ lacks "_" (pad2 n) = true).
  { intros n Hn. split; apply lacks_pad2; try exact Hn; simpl; lia. }
  unfold strptime, strftime.
  rewrite split_app_sep by (apply lacks_pad4; [lia|simpl; lia]).
  rewrite split_app_sep by (apply Hsep; lia).
  rewrite <- (append_cons_assoc (pad2 (day t)) "_" (pad2 (hour t))).
  rewrite split_app_sep.
  2:{ rewrite lacks_app.
      change (lacks "-" (String "_" (pad2 (hour t))))
        with (lacks "-" (pad2 (hour t))).
      rewrite (proj1 (Hsep (day t) ltac:(lia))),
              (proj1 (Hsep (hour t) ltac:(lia))). reflexivity. }
  rewrite split_app_sep by (apply Hsep; lia).
  rewrite split_lacks by (apply Hsep; lia).
  rewrite split_app_sep by (apply Hsep; lia).
  rewrite split_lacks by (apply Hsep; lia).
  rewrite parse_Y_pad4 by lia.
  rewrite parse_m_pad2 by lia.
  rewrite parse_d_pad2 by lia.
  rewrite parse_H_pad2 by lia.
  rewrite parse_M_pad2 by lia.
  rewrite parse_S_pad2 by lia.
  assert ((1 <=? year t)%N = true) as -> by (apply N.leb_le; lia).
  assert ((day t <=? days_in_month (year t) (month t))%N = true) as ->
    by (apply N.leb_le; lia).
  destruct t; reflexivity.
Qed.

Lemma lacks_strftime (c : ascii) (t : datetime) :
  valid_datetime t = true ->
  (N_of_ascii c < 45 \/ (45 < N_of_ascii c /\ N_of_ascii c < 48) \/
   (57 < N_of_ascii c /\ N_of_ascii c < 95) \/ 95 < N_of_ascii c)%N ->
  lacks c (strftime t) = true.
Proof.
  intros Hv Hc. apply valid_datetime_bounds in Hv
    as (Hy1 & Hy2 & Hm1 & Hm2 & Hd1 & Hd2 & Hh & Hmi & Hs).
  pose proof (days_in_month_le_31 (year t) (month t)) as H31.
  assert (Hpad : forall n : N, (n < 100)%N -> lacks c (pad2 n) = true).
  { intros n Hn. apply lacks_pad2; [exact Hn|lia]. }
  assert (Hdash : Ascii.eqb "-" c = false).
  { apply Ascii.eqb_neq. intros <-. simpl in Hc. lia. }
  assert (Hunder : Ascii.eqb "_" c = false).
  { apply Ascii.eqb_neq. intros <-. simpl in Hc. lia. }
  unfold strftime.
  repeat (rewrite lacks_app || cbn [lacks]).
  rewrite Hdash, Hunder, lacks_pad4 by (lia || (simpl; lia)).
  rewrite !Hpad by lia. reflexivity.
Qed.

Lemma timestamp_text_of_saved (prefix : string) (t : datetime) :
  valid_datetime t = true ->
  timestamp_text (model_file_name prefix t) = strftime t.
Proof.
  intros Hv. unfold timestamp_text, model_file_name.
  assert (Hhash : lacks "#" (String.append (strftime t) ".pkl") = true).
  { rewrite lacks_app, (lacks_strftime "#" t Hv) by (simpl; lia). reflexivity. }
  destruct (split_ends_with "#" prefix _ Hhash) as [h [tl ->]].
  change (h :: tl ++ [String.append (strftime t) ".pkl"])
    with ((h :: tl) ++ [String.append (strftime t) ".pkl"]).
  rewrite List.last_last.
  apply remove_pkl_suffix. apply lacks_strftime; [exact Hv|simpl; lia].
Qed.

Lemma sort_key_of_saved (prefix : string) (t : datetime) :
  valid_datetime t = true -> sort_key (model_file_name prefix t) = Ret t.
Proof.
  intros Hv. unfold sort_key.
  rewrite (timestamp_text_of_saved prefix t Hv),
          (strptime_strftime_fields t (valid_datetime_bounds t Hv)).
  reflexivity.
Qed.

(** X21.  A moment written by [strftime] in the format of [save_model] is
    read back by [strptime] as the same moment (years of four digits). *)
Theorem timestamp_round_trip (t : datetime) :
  valid_datetime t = true -> strptime (strftime t) = Some t.
Proof.
  intros Hv. apply valid_datetime_bounds in Hv.
  apply strptime_strftime_fields. exact Hv.
Qed.

Lemma timestamp_round_trip_witness :
  strptime (strftime june_first) = Some june_first.
Proof. apply (timestamp_round_trip june_first). reflexivity. Defined.

Lemma model_file_name_suffix (prefix : string) (t : datetime) :
  model_file_name prefix t
  = String.append (String.append prefix (String "#" (strftime t))) ".pkl".
Proof. unfold model_file_name. symmetry. apply append_cons_assoc. Qed.

(** X22.  Whatever the prefix (it may itself hold [#] or [.pkl]), the name
    [save_model] builds ends in [.pkl], and the key by which
    [get_last_trained_model_name] sorts it is the moment of the save. *)
Theorem saved_model_name_is_read_back (prefix : string) (t : datetime) :
  valid_datetime t = true ->
  endswith (model_file_name prefix t) ".pkl" = true /\
  sort_key (model_file_name prefix t) = Ret t.
Proof.
  intros Hv. split.
  - rewrite model_file_name_suffix. apply endswith_app.
  - apply sort_key_of_saved. exact Hv.
Qed.

Lemma saved_model_name_is_read_back_witness :
  endswith (model_file_name "v2.pkl#final" june_first) ".pkl" = true /\
  sort_key (model_file_name "v2.pkl#final" june_first) = Ret june_first.
Proof.
  apply (saved_model_name_is_read_back "v2.pkl#final" june_first). reflexivity.
Defined.

Lemma model_file_name_inj (prefix prefix' : string) (t t' : datetime) :
  valid_datetime t = true -> valid_datetime t' = true ->
  model_file_name prefix t = model_file_name prefix' t' -> t = t'.
Proof.
  intros Hv Hv' Heq.
  pose proof (sort_key_of_saved prefix t Hv) as Hk.
  rewrite Heq, (sort_key_of_saved prefix' t' Hv') in Hk. congruence.
Qed.

(** ** save_model, load_model *)

Section WithJoblib.
Context `{JoblibLib}.

(** What [joblib] promises: loading what was dumped gives it back. *)
Hypothesis jload_jdump : forall m, jload (jdump m) = Ret m.

(** X23.  [save_model] returns the name it built, and [load_model] on
    that name gives the model back. *)
Theorem save_model_then_load (fs : gmap string jbytes) (now : datetime)
    (filename_path : string) (m : jmodel) :
  jwritable (model_file_name filename_path now) = true ->
  exists fs',
    save_model fs now filename_path m
    = (fs', Ret (model_file_name filename_path now)) /\
    load_model fs' (model_file_name filename_path now) = Ret m.
Proof.
  intros Hw. unfold save_model. rewrite Hw. eexists. split; [reflexivity|].
  unfold load_model. rewrite lookup_insert_eq. apply jload_jdump.
Qed.

(** X24.  The timestamp has the resolution of a second.  Two saves under
    one prefix at different moments leave two files, and each loads its
    own model; two saves at the same moment share a name, and the file
    holds the second model only. *)
Theorem save_model_twice (fs : gmap string jbytes) (t1 t2 : datetime)
    (filename_path : string) (m1 m2 : jmodel) :
  valid_datetime t1 = true -> valid_datetime t2 = true ->
  jwritable (model_file_name filename_path t1) = true ->
  jwritable (model_file_name filename_path t2) = true ->
  let fs2 := fst (save_model (fst (save_model fs t1 filename_path m1))
                    t2 filename_path m2) in
  load_model fs2 (model_file_name filename_path t2) = Ret m2 /\
  (t1 <> t2 -> load_model fs2 (model_file_name filename_path t1) = Ret m1) /\
  (t1 = t2 -> load_model fs2 (model_file_name filename_path t1) = Ret m2).
Proof.
  intros Hv1 Hv2 Hw1 Hw2. unfold save_model. rewrite Hw1. simpl.
  rewrite Hw2. simpl. unfold load_model. repeat split.
  - rewrite lookup_insert_eq. apply jload_jdump.
  - intros Hne. rewrite lookup_insert_ne.
    + rewrite lookup_insert_eq. apply jload_jdump.
    + intros Heq. apply Hne. symmetry.
      apply (model_file_name_inj filename_path filename_path t2 t1 Hv2 Hv1 Heq).
  - intros ->. rewrite lookup_insert_eq. apply jload_jdump.
Qed.

End WithJoblib.

Lemma save_model_then_load_witness :
  exists fs',
    save_model (H := plain_joblib) ∅ june_first "models/ridge" 5%nat
    = (fs', Ret (model_file_name "models/ridge" june_first)) /\
    load_model (H := plain_joblib) fs'
      (model_file_name "models/ridge" june_first) = Ret 5%nat.
Proof.
  apply (save_model_then_load (H := plain_joblib) (fun m => eq_refl)
           ∅ june_first "models/ridge" 5%nat).
  reflexivity.
Defined.

Lemma save_model_twice_witness :
  let fs2 := fst (save_model (H := plain_joblib)
                    (fst (save_model (H := plain_joblib) ∅ new_year
                            "models/ridge" 5%nat))
                    june_first "models/ridge" 6%nat) in
  load_model (H := plain_joblib) fs2
    (model_file_name "models/ridge" june_first) = Ret 6%nat /\
  (new_year <> june_first ->
   load_model (H := plain_joblib) fs2
     (model_file_name "models/ridge" new_year) = Ret 5%nat) /\
  (new_year = june_first ->
   load_model (H := plain_joblib) fs2
     (model_file_name "models/ridge" new_year) = Ret 6%nat).
Proof.
  apply (save_model_twice (H := plain_joblib) (fun m => eq_refl)
           ∅ new_year june_first "models/ridge" 5%nat 6%nat);
    reflexivity.
Defined.

(** ** get_last_trained_model_name *)

Lemma mapM_app {A B} (f : A -> outcome B) (a b : list A) (ra rb : list B) :
  mapM f a = Ret ra -> mapM f b = Ret rb -> mapM f (a ++ b) = Ret (ra ++ rb).
Proof.
  revert ra. induction a as [|x a IH]; simpl; intros ra Ha Hb.
  - injection Ha as <-. exact Hb.
  - destruct (f x) as [y|e]; simpl in *; [|discriminate].
    destruct (mapM f a) as [ys|e]; simpl in *; [|discriminate].
    injection Ha as <-. rewrite (IH ys eq_refl Hb). reflexivity.
Qed.

Lemma keyed_with (P : datetime -> Prop) (l : list string) :
  (forall g, In g l -> exists u, strptime (timestamp_text g) = Some u /\ P u) ->
  exists keyed,
    mapM (fun x => let* k := sort_key x in Ret (k, x)) l = Ret keyed /\
    forall y, In y keyed -> P (fst y).
Proof.
  induction l as [|g l IH]; intros Hall.
  - exists []. split; [reflexivity|intros y []].
  - destruct (Hall g (or_introl eq_refl)) as [u [Hu HP]].
    destruct IH as [keyed [Hk HPk]];
      [intros g' Hg'; apply Hall; right; exact Hg'|].
    exists ((u, g) :: keyed). split.
    + simpl. unfold sort_key at 1. rewrite Hu. simpl. rewrite Hk. reflexivity.
    + intros y [<-|Hy]; [exact HP|apply HPk; exact Hy].
Qed.

Lemma sort_desc_first_latest (pre post : list (datetime * string))
    (t : datetime) (f : string) :
  (forall y, In y pre -> datetime_ltb (fst y) t = true) ->
  (forall y, In y post -> datetime_leb (fst y) t = true) ->
  exists rest, sort_desc (pre ++ (t, f) :: post) = (t, f) :: rest.
Proof.
  intros Hpre Hpost. induction pre as [|y pre IH]; simpl.
  - pose proof (sort_desc_head post) as Hhead.
    destruct (sort_desc post) as [|h rest] eqn:Hs; simpl; [eauto|].
    assert (datetime_leb (fst h) t = true) as Hh.
    { apply Hpost. apply sort_desc_In. rewrite Hs. left. reflexivity. }
    unfold datetime_leb in Hh. apply negb_true_iff in Hh. simpl in Hh.
    rewrite Hh. eauto.
  - destruct IH as [rest ->]; [intros z Hz; apply Hpre; right; exact Hz|].
    simpl. rewrite (Hpre y (or_introl eq_refl)). eauto.
Qed.

Lemma filter_pkl_In (files : list string) (g : string) :
  In g (List.filter (fun file => endswith file ".pkl") files)
  <-> In g files /\ endswith g ".pkl" = true.
Proof. apply (List.filter_In (fun file => endswith file ".pkl")). Qed.

(** X25.  What is returned when the call succeeds: the first name in the
    order of the listing, among those ending in [.pkl], whose timestamp
    is the largest.  Names before it have a strictly smaller timestamp,
    names after it at most the same. *)
Theorem get_last_trained_model_name_first_latest
    (dirs : gmap string (list string)) (base_path : string)
    (pre post : list string) (f : string) (t : datetime) :
  dirs !! base_path = Some (pre ++ f :: post) ->
  endswith f ".pkl" = true ->
  strptime (timestamp_text f) = Some t ->
  (forall g, In g pre -> endswith g ".pkl" = true ->
             exists u, strptime (timestamp_text g) = Some u /\
                       datetime_ltb u t = true) ->
  (forall g, In g post -> endswith g ".pkl" = true ->
             exists u, strptime (timestamp_text g) = Some u /\
                       datetime_leb u t = true) ->
  get_last_trained_model_name dirs base_path
  = Ret (Some (path_join base_path f)).
Proof.
  intros Hdir Hpkl Ht Hpre Hpost.
  unfold get_last_trained_model_name, listdir. rewrite Hdir. simpl.
  rewrite List.filter_app. simpl. rewrite Hpkl.
  set (mpre := List.filter (fun file => endswith file ".pkl") pre).
  set (mpost := List.filter (fun file => endswith file ".pkl") post).
  destruct (keyed_with (fun u => datetime_ltb u t = true) mpre)
    as [kpre [Hkpre HPpre]].
  { intros g Hg. apply filter_pkl_In in Hg as [Hg Hp]. apply Hpre; assumption. }
  destruct (keyed_with (fun u => datetime_leb u t = true) mpost)
    as [kpost [Hkpost HPpost]].
  { intros g Hg. apply filter_pkl_In in Hg as [Hg Hp]. apply Hpost; assumption. }
  assert (Hkeyed :
            mapM (fun x => let* k := sort_key x in Ret (k, x))
              (mpre ++ f :: mpost) = Ret (kpre ++ (t, f) :: kpost)).
  { apply mapM_app; [exact Hkpre|].
    simpl. unfold sort_key at 1. rewrite Ht. simpl. rewrite Hkpost.
    reflexivity. }
  destruct (sort_desc_first_latest kpre kpost t f HPpre HPpost) as [rest Hs].
  destruct (mpre ++ f :: mpost) as [|x xs] eqn:Hm.
  { destruct mpre; discriminate. }
  unfold sort_by_key_reverse. rewrite Hkeyed. simpl.
  rewrite Hs. reflexivity.
Qed.

Lemma get_last_trained_model_name_first_latest_witness :
  get_last_trained_model_name
    {[ "models" := ["a#2024-01-01_10-00-00.pkl"; "b#2024-06-01_09-00-00.pkl";
                    "old.pkl.bak"; "c#2024-06-01_09-00-00.pkl"] ]} "models"
  = Ret (Some (path_join "models" "b#2024-06-01_09-00-00.pkl")).
Proof.
  apply (get_last_trained_model_name_first_latest _ "models"
           ["a#2024-01-01_10-00-00.pkl"]
           ["old.pkl.bak"; "c#2024-06-01_09-00-00.pkl"]
           "b#2024-06-01_09-00-00.pkl" june_first);
    try reflexivity.
  - intros g [<-|[]] _. eexists. split; reflexivity.
  - intros g [<-|[<-|[]]] Hp; [discriminate|]. eexists. split; reflexivity.
Defined.

Lemma get_last_none_when_no_pkl (dirs : gmap string (list string))
    (base_path : string) (files : list string) :
  dirs !! base_path = Some files ->
  (forall f, In f files -> endswith f ".pkl" = false) ->
  get_last_trained_model_name dirs base_path = Ret None.
Proof.
  intros Hdir Hnone. unfold get_last_trained_model_name, listdir.
  rewrite Hdir. simpl.
  destruct (List.filter (fun file => endswith file ".pkl") files)
    as [|m ms] eqn:Hm; [reflexivity|].
  assert (In m (m :: ms)) as Hin by (left; reflexivity).
  rewrite <- Hm in Hin. apply filter_pkl_In in Hin as [Hin Hp].
  rewrite (Hnone m Hin) in Hp. discriminate.
Qed.

(** X26.  [None] is returned exactly when the directory can be listed and
    no name in it ends in [.pkl]; a name without a timestamp never turns
    the result into [None]. *)
Theorem get_last_trained_model_name_none (dirs : gmap string (list string))
    (base_path : string) :
  get_last_trained_model_name dirs base_path = Ret None <->
  exists files,
    dirs !! base_path = Some files /\
    forall f, In f files -> endswith f ".pkl" = false.
Proof.
  split.
  - unfold get_last_trained_model_name, listdir.
    destruct (dirs !! base_path) as [files|] eqn:Hdir; simpl; [|discriminate].
    destruct (List.filter (fun file => endswith file ".pkl") files)
      as [|m ms] eqn:Hm.
    + intros _. exists files. split; [reflexivity|].
      intros f Hf. destruct (endswith f ".pkl") eqn:Hp; [|reflexivity].
      assert (In f []) as [].
      rewrite <- Hm. apply filter_pkl_In. auto.
    + destruct (sort_by_key_reverse (m :: ms)) as [[|x xs]|e]; discriminate.
  - intros [files [Hdir Hnone]].
    apply (get_last_none_when_no_pkl dirs base_path files Hdir Hnone).
Qed.

Lemma filter_pkl_twice (files : list string) :
  List.filter (fun file => endswith file ".pkl")
    (List.filter (fun file => endswith file ".pkl") files)
  = List.filter (fun file => endswith file ".pkl") files.
Proof.
  induction files as [|f files IH]; simpl; [reflexivity|].
  destruct (endswith f ".pkl") eqn:Hp; simpl; [rewrite Hp, IH|]; auto.
Qed.

(** X27.  Names that do not end in [.pkl] are never looked at: the
    result on a directory is the result on the directory with those
    names taken out. *)
Theorem get_last_trained_model_name_ignores_others
    (dirs dirs' : gmap string (list string)) (base_path : string)
    (files : list string) :
  dirs !! base_path = Some files ->
  dirs' !! base_path
  = Some (List.filter (fun file => endswith file ".pkl") files) ->
  get_last_trained_model_name dirs base_path
  = get_last_trained_model_name dirs' base_path.
Proof.
  intros Hdir Hdir'. unfold get_last_trained_model_name, listdir.
  rewrite Hdir, Hdir'. simpl. rewrite filter_pkl_twice. reflexivity.
Qed.

Lemma get_last_trained_model_name_ignores_others_witness :
  get_last_trained_model_name
    {[ "models" := ["a#2024-01-01_10-00-00.pkl"; "notes#draft.txt"] ]} "models"
  = get_last_trained_model_name
      {[ "models" := ["a#2024-01-01_10-00-00.pkl"] ]} "models".
Proof.
  apply (get_last_trained_model_name_ignores_others _ _ "models"
           ["a#2024-01-01_10-00-00.pkl"; "notes#draft.txt"]);
    reflexivity.
Defined.

Lemma get_last_trained_model_name_none_witness :
  get_last_trained_model_name model_dirs "reports" = Ret None.
Proof.
  apply (proj2 (get_last_trained_model_name_none model_dirs "reports")).
  exists ["summary.txt"]. split; [reflexivity|].
  intros f [<-|[]]. reflexivity.
Defined.

Lemma get_last_returns_latest (dirs : gmap string (list string))
    (base_path : string) (files : list string) :
  dirs !! base_path = Some files ->
  (exists f, In f files /\ endswith f ".pkl" = true) ->
  (forall f, In f files -> endswith f ".pkl" = true ->
             is_Some (strptime (timestamp_text f))) ->
  exists first t,
    get_last_trained_model_name dirs base_path
    = Ret (Some (path_join base_path first)) /\
    In first files /\ endswith first ".pkl" = true /\
    strptime (timestamp_text first) = Some t /\
    forall g u, In g files -> endswith g ".pkl" = true ->
                strptime (timestamp_text g) = Some u ->
                datetime_leb u t = true.
Proof.
  intros Hdir [f0 [Hf0 Hpkl0]] Hall.
  unfold get_last_trained_model_name, listdir. rewrite Hdir. simpl.
  set (model_files := List.filter (fun file => endswith file ".pkl") files).
  pose proof (filter_pkl_In files) as Hmf. fold model_files in Hmf.
  destruct (keyed_all model_files) as [keyed [Hk Hin]].
  { apply List.Forall_forall. intros x Hx. apply Hmf in Hx as [Hx Hp].
    apply Hall; assumption. }
  destruct (Hall f0 Hf0 Hpkl0) as [t0 Ht0].
  assert (In (t0, f0) keyed) as Hk0 by (apply Hin; split; [apply Hmf|]; auto).
  pose proof (sort_desc_head keyed) as Hhead.
  destruct model_files as [|m ms] eqn:Hms.
  { destruct (proj2 (Hmf f0) (conj Hf0 Hpkl0)). }
  unfold sort_by_key_reverse. rewrite Hk. simpl.
  destruct (sort_desc keyed) as [|[t first] rest] eqn:Hs.
  { apply sort_desc_In in Hk0. rewrite Hs in Hk0. destruct Hk0. }
  simpl. exists first, t.
  assert (In (t, first) keyed) as Hfirst
    by (apply sort_desc_In; rewrite Hs; left; reflexivity).
  apply Hin in Hfirst as [Hfirst Ht]. apply Hmf in Hfirst as [Hfirst Hpkl].
  repeat split; try assumption.
  intros g u Hg Hgp Hu.
  apply (Hhead (u, g)). rewrite <- Hs. apply sort_desc_In, Hin.
  split; [apply Hmf; auto|exact Hu].
Qed.

Lemma datetime_leb_antisym (a b : datetime) :
  datetime_leb a b = true -> datetime_leb b a = true -> a = b.
Proof.
  unfold datetime_leb, datetime_ltb. intros Hab Hba.
  rewrite (lex_compare_antisym (fields a) (fields b)) in Hab.
  destruct (lex_compare (fields a) (fields b)) eqn:Hc; try discriminate.
  apply lex_compare_Eq in Hc. destruct a, b. unfold fields in Hc. simpl in Hc.
  injection Hc as -> -> -> -> -> ->. reflexivity.
Qed.

(** X28.  [os.listdir] promises no order.  When every name ending in
    [.pkl] has a timestamp and no two of them have the same, the result
    does not depend on the order (or the repetitions) of the listing. *)
Theorem get_last_trained_model_name_any_order
    (dirs dirs' : gmap string (list string)) (base_path : string)
    (files files' : list string) :
  dirs !! base_path = Some files ->
  dirs' !! base_path = Some files' ->
  (forall f, In f files <-> In f files') ->
  (forall f, In f files -> endswith f ".pkl" = true ->
             is_Some (strptime (timestamp_text f))) ->
  (forall f g, In f files -> In g files ->
               endswith f ".pkl" = true -> endswith g ".pkl" = true ->
               strptime (timestamp_text f) = strptime (timestamp_text g) ->
               f = g) ->
  get_last_trained_model_name dirs base_path
  = get_last_trained_model_name dirs' base_path.
Proof.
  intros Hdir Hdir' Hsame Hall Hdistinct.
  destruct (List.filter (fun file => endswith file ".pkl") files)
    as [|m ms] eqn:Hm.
  - assert (forall f, In f files -> endswith f ".pkl" = false) as Hnone.
    { intros f Hf. destruct (endswith f ".pkl") eqn:Hp; [|reflexivity].
      assert (In f []) as []. rewrite <- Hm. apply filter_pkl_In. auto. }
    rewrite (get_last_none_when_no_pkl dirs base_path files Hdir Hnone).
    rewrite (get_last_none_when_no_pkl dirs' base_path files' Hdir');
      [reflexivity|].
    intros f Hf. apply Hnone, Hsame, Hf.
  - assert (exists f, In f files /\ endswith f ".pkl" = true) as Hex.
    { exists m. apply filter_pkl_In. rewrite Hm. left. reflexivity. }
    destruct (get_last_returns_latest dirs base_path files Hdir Hex Hall)
      as (f1 & t1 & -> & Hf1 & Hp1 & Ht1 & Hmax1).
    destruct (get_last_returns_latest dirs' base_path files' Hdir')
      as (f2 & t2 & -> & Hf2 & Hp2 & Ht2 & Hmax2).
    { destruct Hex as [f [Hf Hp]]. exists f. split; [apply Hsame|]; assumption. }
    { intros f Hf. apply Hall, Hsame, Hf. }
    assert (t1 = t2) as <-.
    { apply datetime_leb_antisym.
      - apply (Hmax2 f1 t1); [apply Hsame| |]; assumption.
      - apply (Hmax1 f2 t2); [apply Hsame| |]; assumption. }
    assert (f1 = f2) as <-; [|reflexivity].
    apply Hdistinct; try assumption; [apply Hsame; assumption|congruence].
Qed.

Lemma get_last_trained_model_name_any_order_witness :
  get_last_trained_model_name model_dirs "models"
  = get_last_trained_model_name model_dirs_shuffled "models".
Proof.
  apply (get_last_trained_model_name_any_order model_dirs model_dirs_shuffled
           "models"
           ["m#2024-01-01_10-00-00.pkl"; "notes.txt";
            "m#2024-06-01_09-00-00.pkl"]
           ["m#2024-06-01_09-00-00.pkl"; "m#2024-01-01_10-00-00.pkl";
            "notes.txt"] eq_refl eq_refl).
  - intros f. simpl. tauto.
  - intros f [<-|[<-|[<-|[]]]] Hp; try discriminate; eexists; reflexivity.
  - intros f g [<-|[<-|[<-|[]]]] [<-|[<-|[<-|[]]]] Hp Hq Heq;
      try reflexivity; discriminate.
Defined.

(** X29.  [save_model] and [get_last_trained_model_name] fit together: on
    a directory that holds the names of saved models only (whatever
    their prefixes), the lookup does not raise and returns the path of a
    model whose moment of saving no other exceeds. *)
Theorem get_last_trained_model_name_of_saved
    (dirs : gmap string (list string)) (base_path : string)
    (saved : list (string * datetime)) :
  dirs !! base_path
  = Some (map (fun p => model_file_name (fst p) (snd p)) saved) ->
  saved <> [] ->
  Forall (fun p => valid_datetime (snd p) = true) saved ->
  exists p,
    In p saved /\
    get_last_trained_model_name dirs base_path
    = Ret (Some (path_join base_path (model_file_name (fst p) (snd p)))) /\
    forall q, In q saved -> datetime_leb (snd q) (snd p) = true.
Proof.
  intros Hdir Hne Hvalid. rewrite List.Forall_forall in Hvalid.
  assert (Hparse : forall q, In q saved ->
            endswith (model_file_name (fst q) (snd q)) ".pkl" = true /\
            strptime (timestamp_text (model_file_name (fst q) (snd q)))
            = Some (snd q)).
  { intros q Hq. split.
    - rewrite model_file_name_suffix. apply endswith_app.
    - rewrite timestamp_text_of_saved by (apply Hvalid; exact Hq).
      apply strptime_strftime_fields, valid_datetime_bounds.
      apply Hvalid. exact Hq. }
  destruct (get_last_returns_latest dirs base_path _ Hdir)
    as (first & t & Hres & Hfirst & _ & Ht & Hmax).
  - destruct saved as [|q saved']; [congruence|].
    exists (model_file_name (fst q) (snd q)). split; [left; reflexivity|].
    apply Hparse. left. reflexivity.
  - intros f Hf _. apply in_map_iff in Hf as [q [<- Hq]].
    rewrite (proj2 (Hparse q Hq)). eauto.
  - apply in_map_iff in Hfirst as [p [<- Hp]].
    exists p. split; [exact Hp|]. split; [exact Hres|].
    rewrite (proj2 (Hparse p Hp)) in Ht. injection Ht as <-.
    intros q Hq. apply (Hmax (model_file_name (fst q) (snd q))).
    + apply in_map_iff. exists q. auto.
    + apply Hparse. exact Hq.
    + apply Hparse. exact Hq.
Qed.

Lemma get_last_trained_model_name_of_saved_witness :
  exists p,
    In p [("ridge", new_year); ("lasso#v2", june_first)] /\
    get_last_trained_model_name
      {[ "models" := [model_file_name "ridge" new_year;
                      model_file_name "lasso#v2" june_first] ]} "models"
    = Ret (Some (path_join "models" (model_file_name (fst p) (snd p)))) /\
    forall q, In q [("ridge", new_year); ("lasso#v2", june_first)] ->
              datetime_leb (snd q) (snd p) = true.
Proof.
  apply (get_last_trained_model_name_of_saved _ "models"
           [("ridge", new_year); ("lasso#v2", june_first)]).
  - reflexivity.
  - discriminate.
  - repeat constructor.
Defined.

End LoaderMore.
